(** * Marketplace listing validator: a shallow embedding of [backend/]

    The development follows the three modules of the service:

    - [backend/models.py]    the pydantic schemas ([ValidationRequest],
                             [ValidationIssue], [ValidationResponse]);
    - [backend/validator.py] [MarketplaceValidator]: prompt loading, the
                             text metrics, [validate_listing] and the
                             fallback response;
    - [backend/main.py]      start-up of the validator, the [/validate]
                             endpoint and the [/health] endpoint.

    Python values are modelled as follows.  A [str] is a [string]; its
    characters are the code points below 256, which is enough for every
    literal of the program.  An [int] is a [Z] (or a [nat] where Python
    computes a [len]); a [float] is a binary64 [float] of the kernel, so that
    true division and the comparisons of the reading-level heuristic and of
    the score bounds round as they do in Python.  Exceptions are values of
    [exn]; a computation that may raise returns a [Res].  The calls to the
    text-generation service go through a small state-and-exception monad [M]
    whose state records every request that was sent. *)

From Stdlib Require Import String Ascii List ZArith Lia Bool Arith Floats.
Import ListNotations.

Local Open Scope list_scope.
Local Open Scope string_scope.

(* ====================================================================== *)
(** * Python strings *)
(* ====================================================================== *)

Module Str.

(** [str.isspace] on one character: TAB..CR, FS..US, SPACE, NEL and NBSP
    are the white-space code points below 256. *)
Definition isspace (c : ascii) : bool :=
  let n := nat_of_ascii c in
  (((9 <=? n) && (n <=? 13)) || ((28 <=? n) && (n <=? 32))
   || (n =? 133) || (n =? 160))%nat.

Definition is_empty (s : string) : bool :=
  match s with EmptyString => true | String _ _ => false end.

(** [len(s)] is [String.length s]; [s + t] is [s ++ t]. *)

(** [s[:n]] *)
Fixpoint take (n : nat) (s : string) : string :=
  match n, s with
  | S n', String c s' => String c (take n' s')
  | _, _ => EmptyString
  end.

(** [s[n:]] *)
Fixpoint drop (n : nat) (s : string) : string :=
  match n, s with
  | S n', String _ s' => drop n' s'
  | _, _ => s
  end.

(** [s.startswith(p)] *)
Fixpoint startswith (p s : string) : bool :=
  match p, s with
  | EmptyString, _ => true
  | String a p', String b s' => Ascii.eqb a b && startswith p' s'
  | String _ _, EmptyString => false
  end.

(** [sub in s] *)
Fixpoint contains (sub s : string) : bool :=
  startswith sub s
  || match s with
     | EmptyString => false
     | String _ s' => contains sub s'
     end.

(** [s.lstrip()], [s.rstrip()], [s.strip()] *)
Fixpoint lstrip (s : string) : string :=
  match s with
  | EmptyString => EmptyString
  | String c s' => if isspace c then lstrip s' else s
  end.

Fixpoint rstrip (s : string) : string :=
  match s with
  | EmptyString => EmptyString
  | String c s' =>
      match rstrip s' with
      | EmptyString => if isspace c then EmptyString else String c EmptyString
      | r => String c r
      end
  end.

Definition strip (s : string) : string := lstrip (rstrip s).

(** [s.split()]: the maximal runs of characters that are not white space,
    in order.  A character that is not white space opens a new word when the
    next character is white space (or there is none), and otherwise extends
    the word that the rest of the string starts with. *)
Definition head_is_word (s : string) : bool :=
  match s with
  | EmptyString => false
  | String c _ => negb (isspace c)
  end.

Fixpoint split (s : string) : list string :=
  match s with
  | EmptyString => []
  | String c s' =>
      if isspace c then split s'
      else if head_is_word s' then
             match split s' with
             | w :: ws => String c w :: ws
             | [] => [String c EmptyString]
             end
           else String c EmptyString :: split s'
  end.

(** [s.split(sep)] for a separator of one character: the pieces between
    the separators, empty pieces included; never the empty list. *)
Fixpoint split_on (sep : ascii) (s : string) : list string :=
  match s with
  | EmptyString => [EmptyString]
  | String c s' =>
      if Ascii.eqb c sep then EmptyString :: split_on sep s'
      else match split_on sep s' with
           | w :: ws => String c w :: ws
           | [] => [String c EmptyString]
           end
  end.

(** [s.replace(old, new)]: every occurrence of [old], found left to right
    without overlap, is replaced by [new].  [skip] counts the characters of
    a match that are still to be passed over.  With an empty [old], Python
    inserts [new] before every character and at the end. *)
Fixpoint replace_from (old new : string) (skip : nat) (s : string) : string :=
  match s with
  | EmptyString => EmptyString
  | String c s' =>
      match skip with
      | S k => replace_from old new k s'
      | O =>
          if startswith old s
          then new ++ replace_from old new (String.length old - 1) s'
          else String c (replace_from old new 0 s')
      end
  end.

Fixpoint intersperse (new s : string) : string :=
  match s with
  | EmptyString => new
  | String c s' => new ++ String c (intersperse new s')
  end.

Definition replace (old new s : string) : string :=
  match old with
  | EmptyString => intersperse new s
  | String _ _ => replace_from old new 0 s
  end.

(** [sum(len(w) for w in ws)] *)
Definition total_length (ws : list string) : nat :=
  fold_right (fun w acc => String.length w + acc) 0 ws.

End Str.

(** The line feed, and a way to write texts that contain double quotes:
    [dq] turns every apostrophe of its argument into a double quote. *)
Definition LF : string := String (ascii_of_nat 10) EmptyString.
Definition DQUOTE : ascii := ascii_of_nat 34.

Fixpoint dq (s : string) : string :=
  match s with
  | EmptyString => EmptyString
  | String c s' => String (if Ascii.eqb c "'" then DQUOTE else c) (dq s')
  end.

(** ["".join(line + "\n" for line in ls)] *)
Definition unlines (ls : list string) : string :=
  fold_right (fun l acc => l ++ LF ++ acc) EmptyString ls.

(* ====================================================================== *)
(** * Exceptions and results *)
(* ====================================================================== *)

(** The exception classes that the program names or that its library calls
    raise, with their base class. *)
Inductive exn_class : Type :=
| Exception
| ValueError
| JSONDecodeError      (* json.JSONDecodeError(ValueError) *)
| ValidationError      (* pydantic.ValidationError(ValueError) *)
| ArithmeticError
| ZeroDivisionError
| AttributeError
| OSError
| FileNotFoundError
| APIError.            (* openai.APIError and its subclasses *)

Definition base_class (c : exn_class) : option exn_class :=
  match c with
  | Exception => None
  | ValueError | ArithmeticError | AttributeError | OSError | APIError =>
      Some Exception
  | JSONDecodeError | ValidationError => Some ValueError
  | ZeroDivisionError => Some ArithmeticError
  | FileNotFoundError => Some OSError
  end.

Definition exn_class_eqb (a b : exn_class) : bool :=
  match a, b with
  | Exception, Exception | ValueError, ValueError
  | JSONDecodeError, JSONDecodeError | ValidationError, ValidationError
  | ArithmeticError, ArithmeticError | ZeroDivisionError, ZeroDivisionError
  | AttributeError, AttributeError | OSError, OSError
  | FileNotFoundError, FileNotFoundError | APIError, APIError => true
  | _, _ => false
  end.

(** [issubclass(c, d)]; the hierarchy is three levels deep. *)
Fixpoint issubclass_upto (n : nat) (c d : exn_class) : bool :=
  exn_class_eqb c d
  || match n, base_class c with
     | S n', Some b => issubclass_upto n' b d
     | _, _ => false
     end.

Definition issubclass : exn_class -> exn_class -> bool := issubclass_upto 3.

(** An exception object: its class and [str(e)]. *)
Record exn : Type := mk_exn { exn_type : exn_class; exn_str : string }.

Definition isinstance (e : exn) (c : exn_class) : bool :=
  issubclass (exn_type e) c.

Inductive Res (A : Type) : Type :=
| Return (a : A)
| Raise (e : exn).
Arguments Return {A} a.
Arguments Raise {A} e.

Definition res_bind {A B : Type} (r : Res A) (k : A -> Res B) : Res B :=
  match r with
  | Return a => k a
  | Raise e => Raise e
  end.

(* ====================================================================== *)
(** * Python numbers *)
(* ====================================================================== *)

(** The binary64 number nearest to [num / den] (ties to even), for
    [den > 0].  The quotient is computed with at least 64 significant bits
    and one more bit that records a non-zero remainder, and then rounded
    once. *)
Definition round_ratio (negative : bool) (num den : Z) : float :=
  match Z.abs num with
  | Z0 => if negative then neg_zero else zero
  | a =>
      let k := Z.max 0 (Z.log2 den - Z.log2 a + 64) in
      let n := (a * 2 ^ k)%Z in
      let q := (n / den)%Z in
      let sticky := if (n mod den =? 0)%Z then 0%Z else 1%Z in
      SF2Prim (binary_normalize prec emax
                 (cond_Zopp negative (2 * q + sticky)) (- k - 1) false)
  end.

(** [float(z)] *)
Definition float_of_int (z : Z) : float := round_ratio (z <? 0)%Z z 1.

(** [a / b] on two ints with [b > 0]: Python rounds the exact quotient. *)
Definition true_div (a b : Z) : float := round_ratio (a <? 0)%Z a b.

(** The value of a decimal literal: [digits * 10 ^ exponent]. *)
Definition float_of_decimal (negative : bool) (digits exponent : Z) : float :=
  if (0 <=? exponent)%Z
  then round_ratio negative (digits * 10 ^ exponent) 1
  else round_ratio negative digits (10 ^ (- exponent)).

(** [x <= y <= z] on floats; false as soon as one of them is a NaN. *)
Definition float_between (lo x hi : float) : bool :=
  PrimFloat.leb lo x && PrimFloat.leb x hi.

(* ====================================================================== *)
(** * Python values decoded from JSON *)
(* ====================================================================== *)

(** What [json.loads] returns: [None], [bool], [int], [float], [str],
    [list] and [dict] with [str] keys.  A [dict] keeps its keys in insertion
    order and holds each key once. *)
#[warnings="-register-all"]
Inductive pyval : Type :=
| PNone
| PBool (b : bool)
| PInt (z : Z)
| PFloat (f : float)
| PStr (s : string)
| PList (l : list pyval)
| PDict (d : list (string * pyval)).

Definition dict : Type := list (string * pyval).

(** [d.get(k)] *)
Fixpoint dict_get (k : string) (d : dict) : option pyval :=
  match d with
  | [] => None
  | (k', v) :: d' => if String.eqb k k' then Some v else dict_get k d'
  end.

(** [k in d] *)
Definition dict_has (k : string) (d : dict) : bool :=
  match dict_get k d with Some _ => true | None => false end.

(** [d[k] = v]: an existing key keeps its position. *)
Fixpoint dict_set (k : string) (v : pyval) (d : dict) : dict :=
  match d with
  | [] => [(k, v)]
  | (k', v') :: d' =>
      if String.eqb k k' then (k, v) :: d' else (k', v') :: dict_set k v d'
  end.

(** [bool(v)]: [None], [False], zero, and the empty string, list and dict
    are false. *)
Definition truthy (v : pyval) : bool :=
  match v with
  | PNone => false
  | PBool b => b
  | PInt z => negb (z =? 0)%Z
  | PFloat f => negb (PrimFloat.eqb f zero)
  | PStr s => negb (Str.is_empty s)
  | PList l => match l with [] => false | _ :: _ => true end
  | PDict d => match d with [] => false | _ :: _ => true end
  end.

(** [type(v).__name__] *)
Definition type_name (v : pyval) : string :=
  match v with
  | PNone => "NoneType"
  | PBool _ => "bool"
  | PInt _ => "int"
  | PFloat _ => "float"
  | PStr _ => "str"
  | PList _ => "list"
  | PDict _ => "dict"
  end.

(* ====================================================================== *)
(** * [json.loads] *)
(* ====================================================================== *)

(** The decoder of the [json] module in its default configuration: the
    grammar of RFC 8259 extended with [NaN], [Infinity] and [-Infinity],
    strict strings (no raw control character), integers decoded to [int] and
    numbers with a fraction or an exponent to [float], and the last value
    kept for a repeated key.  An escape [\uXXXX] is decoded when it denotes a
    character of the alphabet of this model (a code point below 256) and is
    reported as undecodable otherwise.  The text of the error message is not
    modelled: the program never reads it.  Neither are the limits of the
    interpreter (recursion depth, digits of an [int]), where the library
    raises a [RecursionError] or a [ValueError].  What is stated for every
    text is therefore stated for every decoder, on [AnyDecoder]; [loads]
    serves to run the program on given texts. *)
Module Json.

Definition is_ws (c : ascii) : bool :=
  Ascii.eqb c " " || (nat_of_ascii c =? 9)%nat
  || (nat_of_ascii c =? 10)%nat || (nat_of_ascii c =? 13)%nat.

Fixpoint skip_ws (s : string) : string :=
  match s with
  | EmptyString => EmptyString
  | String c s' => if is_ws c then skip_ws s' else s
  end.

Definition is_digit (c : ascii) : bool :=
  let n := nat_of_ascii c in ((48 <=? n) && (n <=? 57))%nat.

Definition digit_value (c : ascii) : Z := Z.of_nat (nat_of_ascii c - 48).

Definition hex_value (c : ascii) : option nat :=
  let n := nat_of_ascii c in
  if ((48 <=? n) && (n <=? 57))%nat then Some (n - 48)
  else if ((65 <=? n) && (n <=? 70))%nat then Some (n - 55)
  else if ((97 <=? n) && (n <=? 102))%nat then Some (n - 87)
  else None.

(** Four hexadecimal digits to a character of the alphabet. *)
Definition unicode_escape (a b c d : ascii) : option ascii :=
  match hex_value a, hex_value b, hex_value c, hex_value d with
  | Some x, Some y, Some z, Some t =>
      let n := ((x * 16 + y) * 16 + z) * 16 + t in
      if (n <? 256)%nat then Some (ascii_of_nat n) else None
  | _, _, _, _ => None
  end.

Definition simple_escape (c : ascii) : option ascii :=
  if Ascii.eqb c DQUOTE then Some DQUOTE
  else if Ascii.eqb c "\" then Some "\"%char
  else if Ascii.eqb c "/" then Some "/"%char
  else if Ascii.eqb c "b" then Some (ascii_of_nat 8)
  else if Ascii.eqb c "f" then Some (ascii_of_nat 12)
  else if Ascii.eqb c "n" then Some (ascii_of_nat 10)
  else if Ascii.eqb c "r" then Some (ascii_of_nat 13)
  else if Ascii.eqb c "t" then Some (ascii_of_nat 9)
  else None.

Definition cons_fst (c : ascii) (r : option (string * string))
  : option (string * string) :=
  match r with
  | Some (s, rest) => Some (String c s, rest)
  | None => None
  end.

(** The characters of a string up to its closing quote, and what follows
    the quote. *)
Fixpoint scanstring (s : string) : option (string * string) :=
  match s with
  | EmptyString => None
  | String c s' =>
      if Ascii.eqb c DQUOTE then Some (EmptyString, s')
      else if Ascii.eqb c "\" then
        match s' with
        | String e s'' =>
            if Ascii.eqb e "u" then
              match s'' with
              | String h1 (String h2 (String h3 (String h4 rest))) =>
                  match unicode_escape h1 h2 h3 h4 with
                  | Some ch => cons_fst ch (scanstring rest)
                  | None => None
                  end
              | _ => None
              end
            else
              match simple_escape e with
              | Some ch => cons_fst ch (scanstring s'')
              | None => None
              end
        | EmptyString => None
        end
      else if (nat_of_ascii c <? 32)%nat then None
      else cons_fst c (scanstring s')
  end.

(** The longest prefix of digits, read as a number, with its length. *)
Fixpoint span_digits (acc : Z) (len : nat) (s : string) : Z * nat * string :=
  match s with
  | String c s' =>
      if is_digit c then span_digits (acc * 10 + digit_value c)%Z (S len) s'
      else (acc, len, s)
  | EmptyString => (acc, len, s)
  end.

(** The integer part: a single zero, or a digit from 1 to 9 followed by
    digits; a leading zero stands alone. *)
Definition scan_integer (s : string) : option (Z * string) :=
  match s with
  | String c s' =>
      if Ascii.eqb c "0" then Some (0%Z, s')
      else if is_digit c then
             let '(n, _, rest) := span_digits 0 0 s in Some (n, rest)
           else None
  | EmptyString => None
  end.

(** The optional fraction, a point and at least one digit: the digits
    appended to [n], and how many there are. *)
Definition scan_fraction (n : Z) (s : string) : option (Z * nat * string) :=
  match s with
  | String c s' =>
      if Ascii.eqb c "." then
        match span_digits n 0 s' with
        | (_, O, _) => None
        | r => Some r
        end
      else None
  | EmptyString => None
  end.

(** The optional exponent: [e] or [E], an optional sign, at least one
    digit. *)
Definition scan_exponent (s : string) : option (Z * string) :=
  match s with
  | String c s' =>
      if Ascii.eqb c "e" || Ascii.eqb c "E" then
        let '(negative, s'') :=
          match s' with
          | String sg t =>
              if Ascii.eqb sg "-" then (true, t)
              else if Ascii.eqb sg "+" then (false, t)
              else (false, s')
          | EmptyString => (false, s')
          end in
        match span_digits 0 0 s'' with
        | (_, O, _) => None
        | (e, _, rest) => Some (if negative then (- e)%Z else e, rest)
        end
      else None
  | EmptyString => None
  end.

Definition scan_number (s : string) : option (pyval * string) :=
  let '(negative, s1) :=
    match s with
    | String c s' => if Ascii.eqb c "-" then (true, s') else (false, s)
    | EmptyString => (false, s)
    end in
  match scan_integer s1 with
  | None => None
  | Some (n, s2) =>
      let '(digits, scale, s3, has_frac) :=
        match scan_fraction n s2 with
        | Some (m, k, rest) => (m, k, rest, true)
        | None => (n, O, s2, false)
        end in
      match scan_exponent s3 with
      | Some (e, s4) =>
          Some (PFloat (float_of_decimal negative digits (e - Z.of_nat scale)),
                s4)
      | None =>
          if has_frac
          then Some (PFloat (float_of_decimal negative digits
                               (- Z.of_nat scale)), s3)
          else Some (PInt (if negative then (- n)%Z else n), s3)
      end
  end.

Definition literal (word : string) (v : pyval) (s : string)
  : option (pyval * string) :=
  if Str.startswith word s
  then Some (v, Str.drop (String.length word) s)
  else None.

(** [scan_once], with the loops over the items of an array and the members
    of an object.  Every call passes on less [fuel]; [loads] supplies more
    than any text can use. *)
Fixpoint scan_once (fuel : nat) (s : string) : option (pyval * string) :=
  match fuel with
  | O => None
  | S fuel' =>
      match s with
      | EmptyString => None
      | String c s' =>
          if Ascii.eqb c DQUOTE then
            match scanstring s' with
            | Some (str, rest) => Some (PStr str, rest)
            | None => None
            end
          else if Ascii.eqb c "{" then
            match skip_ws s' with
            | String c1 s1 =>
                if Ascii.eqb c1 "}" then Some (PDict [], s1)
                else
                  match scan_members fuel' [] (String c1 s1) with
                  | Some (d, rest) => Some (PDict d, rest)
                  | None => None
                  end
            | EmptyString => None
            end
          else if Ascii.eqb c "[" then
            match skip_ws s' with
            | String c1 s1 =>
                if Ascii.eqb c1 "]" then Some (PList [], s1)
                else
                  match scan_items fuel' (String c1 s1) with
                  | Some (l, rest) => Some (PList l, rest)
                  | None => None
                  end
            | EmptyString => None
            end
          else if Ascii.eqb c "n" then literal "null" PNone s
          else if Ascii.eqb c "t" then literal "true" (PBool true) s
          else if Ascii.eqb c "f" then literal "false" (PBool false) s
          else if Ascii.eqb c "N" then literal "NaN" (PFloat nan) s
          else if Ascii.eqb c "I" then literal "Infinity" (PFloat infinity) s
          else
            match scan_number s with
            | Some r => Some r
            | None => literal "-Infinity" (PFloat neg_infinity) s
            end
      end
  end

with scan_items (fuel : nat) (s : string) : option (list pyval * string) :=
  match fuel with
  | O => None
  | S fuel' =>
      match scan_once fuel' s with
      | None => None
      | Some (v, rest) =>
          match skip_ws rest with
          | String c s1 =>
              if Ascii.eqb c "]" then Some ([v], s1)
              else if Ascii.eqb c "," then
                match scan_items fuel' (skip_ws s1) with
                | Some (l, rest') => Some (v :: l, rest')
                | None => None
                end
              else None
          | EmptyString => None
          end
      end
  end

with scan_members (fuel : nat) (acc : dict) (s : string)
  : option (dict * string) :=
  match fuel with
  | O => None
  | S fuel' =>
      match s with
      | String q s0 =>
          if Ascii.eqb q DQUOTE then
            match scanstring s0 with
            | None => None
            | Some (key, rest) =>
                match skip_ws rest with
                | String c s1 =>
                    if Ascii.eqb c ":" then
                      match scan_once fuel' (skip_ws s1) with
                      | None => None
                      | Some (v, rest') =>
                          let acc' := dict_set key v acc in
                          match skip_ws rest' with
                          | String c2 s2 =>
                              if Ascii.eqb c2 "}" then Some (acc', s2)
                              else if Ascii.eqb c2 ","
                                   then scan_members fuel' acc' (skip_ws s2)
                                   else None
                          | EmptyString => None
                          end
                      end
                    else None
                | EmptyString => None
                end
            end
          else None
      | EmptyString => None
      end
  end.

Definition decode_error : exn :=
  mk_exn JSONDecodeError "the text is not a JSON document".

(** [json.loads(s)]: one value, white space around it, nothing else. *)
Definition loads (s : string) : Res pyval :=
  match scan_once (2 * String.length s + 2) (skip_ws s) with
  | Some (v, rest) =>
      if Str.is_empty (skip_ws rest) then Return v else Raise decode_error
  | None => Raise decode_error
  end.

End Json.

(* ====================================================================== *)
(** * [backend/models.py] *)
(* ====================================================================== *)

(** The schemas are pydantic models.  A model is built from keyword
    arguments; each field is validated against its declared type in the
    default (lax) mode of pydantic 2: a [str] field takes a [str] only, a
    [float] field takes a [float], an [int], a [bool] or a [str] that reads
    as a number, a [Literal] or [Enum] field takes one of its values,
    unknown keys are ignored, and any failure raises one [ValidationError]
    (whose text is not modelled). *)
Module Models.

Inductive ValidationCategory : Type :=
| REGULATORY_COMPLIANCE
| CONTENT_QUALITY
| USER_EXPERIENCE
| BRAND_TONE
| PROHIBITED_LANGUAGE
| ETHICAL_STANDARDS.

Definition category_value (c : ValidationCategory) : string :=
  match c with
  | REGULATORY_COMPLIANCE => "Regulatory & Compliance"
  | CONTENT_QUALITY => "Content Quality"
  | USER_EXPERIENCE => "User Experience"
  | BRAND_TONE => "Brand & Tone Alignment"
  | PROHIBITED_LANGUAGE => "Prohibited Language"
  | ETHICAL_STANDARDS => "Ethical Standards"
  end.

Definition categories : list ValidationCategory :=
  [REGULATORY_COMPLIANCE; CONTENT_QUALITY; USER_EXPERIENCE; BRAND_TONE;
   PROHIBITED_LANGUAGE; ETHICAL_STANDARDS].

(** [Literal["low", "medium", "high"]] *)
Inductive Severity : Type := low | medium | high.

Definition severity_value (s : Severity) : string :=
  match s with low => "low" | medium => "medium" | high => "high" end.

Definition severities : list Severity := [low; medium; high].

(** [Literal["compliant", "non_compliant"]] *)
Inductive Status : Type := compliant | non_compliant.

Definition status_value (s : Status) : string :=
  match s with
  | compliant => "compliant"
  | non_compliant => "non_compliant"
  end.

Definition statuses : list Status := [compliant; non_compliant].

Record ValidationRequest : Type := mk_request { listing : string }.

Record ValidationIssue : Type := mk_issue {
  category : ValidationCategory;
  rule_violated : string;
  current_text : string;
  issue : string;
  suggested_fix : string;
  severity : Severity
}.

Record ValidationResponse : Type := mk_response {
  status : Status;
  compliance_score : float;
  issues : list ValidationIssue;
  suggestions : string;
  word_count : Z;
  reading_level : option string
}.

Definition validation_error (model : string) : exn :=
  mk_exn ValidationError ("validation error for " ++ model).

(** The member of a [Literal] or [Enum] whose value is [s]. *)
Fixpoint member {A : Type} (value : A -> string) (members : list A)
  (s : string) : option A :=
  match members with
  | [] => None
  | m :: ms => if String.eqb (value m) s then Some m else member value ms s
  end.

Section Fields.
Variable model : string.

Definition invalid {A : Type} : Res A := Raise (validation_error model).

(** A required [str] field. *)
Definition str_field (v : option pyval) : Res string :=
  match v with
  | Some (PStr s) => Return s
  | _ => invalid
  end.

(** A required [Literal] or string-valued [Enum] field. *)
Definition choice_field {A : Type} (value : A -> string) (members : list A)
  (v : option pyval) : Res A :=
  match v with
  | Some (PStr s) =>
      match member value members s with
      | Some m => Return m
      | None => invalid
      end
  | _ => invalid
  end.

(** A [str] accepted by a [float] field: an optional sign and a number of
    the JSON grammar, white space around it.  The library reads further
    forms (a number that starts or ends with its point, digits grouped with
    underscores, a signed zero); no statement below is about a score given
    as a [str]. *)
Definition str_as_float (s : string) : option float :=
  let t := Str.strip s in
  let t' := match t with
            | String c r => if Ascii.eqb c "+" then r else t
            | EmptyString => t
            end in
  match Json.scan_number t' with
  | Some (PInt z, EmptyString) => Some (float_of_int z)
  | Some (PFloat f, EmptyString) => Some f
  | _ => None
  end.

(** A required [float] field with [ge] and [le] bounds. *)
Definition float_field (ge le : float) (v : option pyval) : Res float :=
  let bounded (f : float) : Res float :=
    if float_between ge f le then Return f else invalid in
  match v with
  | Some (PFloat f) => bounded f
  | Some (PInt z) => bounded (float_of_int z)
  | Some (PBool b) => bounded (if b then one else zero)
  | Some (PStr s) =>
      match str_as_float s with
      | Some f => bounded f
      | None => invalid
      end
  | _ => invalid
  end.

(** A required [int] field.  The program only ever stores an [int] in it
    (the word count it has just computed); the conversions of the lax mode
    from [float] and [str] are left out. *)
Definition int_field (v : option pyval) : Res Z :=
  match v with
  | Some (PInt z) => Return z
  | Some (PBool b) => Return (if b then 1%Z else 0%Z)
  | _ => invalid
  end.

(** An [Optional[str]] field with default [None]. *)
Definition optional_str_field (v : option pyval) : Res (option string) :=
  match v with
  | None | Some PNone => Return None
  | Some (PStr s) => Return (Some s)
  | Some _ => invalid
  end.
End Fields.

(** [ValidationIssue] built from the keyword arguments [kw] *)
Definition ValidationIssue_init (kw : dict) : Res ValidationIssue :=
  let model := "ValidationIssue" in
  res_bind (choice_field model category_value categories
              (dict_get "category" kw)) (fun c =>
  res_bind (str_field model (dict_get "rule_violated" kw)) (fun r =>
  res_bind (str_field model (dict_get "current_text" kw)) (fun t =>
  res_bind (str_field model (dict_get "issue" kw)) (fun i =>
  res_bind (str_field model (dict_get "suggested_fix" kw)) (fun f =>
  res_bind (choice_field model severity_value severities
              (dict_get "severity" kw)) (fun s =>
  Return (mk_issue c r t i f s))))))).

(** A [List[ValidationIssue]] field with default [[]]: a list whose items
    are dicts that validate as issues. *)
Fixpoint issue_items (l : list pyval) : Res (list ValidationIssue) :=
  match l with
  | [] => Return []
  | PDict d :: l' =>
      res_bind (ValidationIssue_init d) (fun i =>
      res_bind (issue_items l') (fun is_ => Return (i :: is_)))
  | _ :: _ => Raise (validation_error "ValidationResponse")
  end.

Definition issues_field (v : option pyval) : Res (list ValidationIssue) :=
  match v with
  | None => Return []
  | Some (PList l) => issue_items l
  | Some _ => Raise (validation_error "ValidationResponse")
  end.

(** [ValidationResponse] built from the keyword arguments [kw] *)
Definition ValidationResponse_init (kw : dict) : Res ValidationResponse :=
  let model := "ValidationResponse" in
  res_bind (choice_field model status_value statuses
              (dict_get "status" kw)) (fun st =>
  res_bind (float_field model 0 10 (dict_get "compliance_score" kw))
    (fun sc =>
  res_bind (issues_field (dict_get "issues" kw)) (fun is_ =>
  res_bind (str_field model (dict_get "suggestions" kw)) (fun sg =>
  res_bind (int_field model (dict_get "word_count" kw)) (fun wc =>
  res_bind (optional_str_field model (dict_get "reading_level" kw))
    (fun rl =>
  Return (mk_response st sc is_ sg wc rl))))))).

(** [ValidationRequest] built from [kw]: [listing] is a [str] with
    [min_length=10] and [max_length=5000]. *)
Definition ValidationRequest_init (kw : dict) : Res ValidationRequest :=
  match dict_get "listing" kw with
  | Some (PStr s) =>
      if ((10 <=? String.length s) && (String.length s <=? 5000))%nat
      then Return (mk_request s)
      else Raise (validation_error "ValidationRequest")
  | _ => Raise (validation_error "ValidationRequest")
  end.

End Models.

(* ====================================================================== *)
(** * The outside world *)
(* ====================================================================== *)

(** One call of [client.chat.completions.create]. *)
Record ChatRequest : Type := mk_chat {
  model : string;
  system_content : string;
  user_content : string;
  response_format : string;
  temperature : float;
  max_tokens : Z
}.

(** What can be observed of a run: each entry into the core validator
    (the program logs it) and each request sent to the service. *)
Inductive event : Type :=
| Validating (listing : string)
| Completion (request : ChatRequest).

(** The text-generation service answers a request with the content of its
    first choice or raises (a transport error, or no usable content);
    [trace] holds the events so far, the latest first. *)
Record World : Type := mk_world {
  service : ChatRequest -> Res string;
  trace : list event
}.

(** What the process finds at start-up: the credential variable and the
    outcome of reading the policy template. *)
Record Env : Type := mk_env {
  OPENAI_API_KEY : option string;
  prompt_file : Res string
}.

(** Computations that may raise and that act on the world. *)
Definition M (A : Type) : Type := World -> Res A * World.

Definition ret {A : Type} (a : A) : M A := fun w => (Return a, w).

Definition bind {A B : Type} (m : M A) (k : A -> M B) : M B :=
  fun w =>
    match m w with
    | (Return a, w') => k a w'
    | (Raise e, w') => (Raise e, w')
    end.

Definition lift {A : Type} (r : Res A) : M A := fun w => (r, w).

(** [try: body / except cls as e: handler e] *)
Definition try_except {A : Type} (body : M A) (cls : exn_class)
  (handler : exn -> M A) : M A :=
  fun w =>
    match body w with
    | (Raise e, w') =>
        if isinstance e cls then handler e w' else (Raise e, w')
    | r => r
    end.

Definition emit (ev : event) : M unit :=
  fun w => (Return tt, mk_world (service w) (ev :: trace w)).

Definition chat_completions_create (request : ChatRequest) : M string :=
  fun w =>
    (service w request,
     mk_world (service w) (Completion request :: trace w)).

Declare Scope m_scope.
Delimit Scope m_scope with M.
Notation "x <- m ;; k" := (bind m (fun x => k))
  (at level 61, m at next level, right associativity) : m_scope.
Notation "m ;; k" := (bind m (fun _ => k))
  (at level 61, right associativity) : m_scope.

(* ====================================================================== *)
(** * [backend/validator.py] *)
(* ====================================================================== *)

Module Validator.
Import Models.

Record MarketplaceValidator : Type := mk_validator {
  api_key : string;
  validation_prompt : string
}.

Definition structured_output_instruction : string :=
  dq (LF ++ unlines
    [ "";
      "IMPORTANT: You must respond with a valid JSON object in the following format:";
      "";
      "{";
      "    'status': 'compliant' or 'non_compliant',";
      "    'compliance_score': <float between 0-10>,";
      "    'issues': [";
      "        {";
      "            'category': '<one of: Regulatory & Compliance, Content Quality, User Experience, Brand & Tone Alignment, Prohibited Language, Ethical Standards>',";
      "            'rule_violated': '<specific rule name>',";
      "            'current_text': '<exact text from listing that violates the rule>',";
      "            'issue': '<description of the issue>',";
      "            'suggested_fix': '<specific suggested replacement>',";
      "            'severity': '<low, medium, or high>'";
      "        }";
      "    ],";
      "    'suggestions': '<overall suggestions for improvement>',";
      "    'word_count': <number of words in the listing>,";
      "    'reading_level': '<estimated reading level>'";
      "}";
      "";
      "Only return the JSON object, no other text." ]).

Definition _get_fallback_prompt : string :=
  "You are an AI validator for credit card marketplace listings. Validate the listing against these standards:"
  ++ LF ++ LF ++ unlines
    [ "1. Regulatory & Compliance: APR disclosure, fee transparency, credit requirements";
      "2. Content Quality: Clear language, proper grammar, completeness";
      "3. User Experience: Appropriate length (100-300 words), readability";
      "4. Brand & Tone: Professional, factual, not overly promotional";
      "5. Prohibited Language: No misleading claims, exaggerated superlatives, vague terms";
      "6. Ethical Standards: Inclusive language, fair representation";
      "" ]
  ++ "Return a JSON object with validation results in the specified format.".

(** The template is read from a fixed path; only a missing file is caught. *)
Definition _load_validation_prompt (env : Env) : Res string :=
  match prompt_file env with
  | Return base_prompt =>
      Return (base_prompt ++ structured_output_instruction)
  | Raise e =>
      if isinstance e FileNotFoundError then Return _get_fallback_prompt
      else Raise e
  end.

(** [a or b] on two optional strings, and [not a]. *)
Definition str_truthy (a : option string) : bool :=
  match a with
  | Some s => negb (Str.is_empty s)
  | None => false
  end.

Definition str_or (a b : option string) : option string :=
  if str_truthy a then a else b.

(** [MarketplaceValidator(api_key)] *)
Definition __init__ (env : Env) (key : option string)
  : Res MarketplaceValidator :=
  match str_or key (OPENAI_API_KEY env) with
  | Some k =>
      if Str.is_empty k
      then Raise (mk_exn ValueError "OpenAI API key is required")
      else res_bind (_load_validation_prompt env) (fun prompt =>
           Return (mk_validator k prompt))
  | None => Raise (mk_exn ValueError "OpenAI API key is required")
  end.

Definition _calculate_word_count (text : string) : nat :=
  List.length (Str.split text).

(** [a / b] on two counts: true division, which raises on a zero
    divisor. *)
Definition len_div (a b : nat) : Res float :=
  match b with
  | O => Raise (mk_exn ZeroDivisionError "division by zero")
  | S _ => Return (true_div (Z.of_nat a) (Z.of_nat b))
  end.

Definition is_nil {A : Type} (l : list A) : bool :=
  match l with [] => true | _ :: _ => false end.

Definition _estimate_reading_level (text : string) : Res string :=
  let sentences := Str.split_on "." text in
  let words := Str.split text in
  if is_nil sentences || is_nil words then Return "Unknown"
  else
    res_bind
      (len_div (List.length words)
         (List.length
            (filter (fun s => negb (Str.is_empty (Str.strip s))) sentences)))
      (fun avg_sentence_length =>
    res_bind (len_div (Str.total_length words) (List.length words))
      (fun avg_word_length =>
    if PrimFloat.ltb 20 avg_sentence_length || PrimFloat.ltb 6 avg_word_length
    then Return "Grade 12+"
    else if PrimFloat.ltb 15 avg_sentence_length
            || PrimFloat.ltb 5 avg_word_length
    then Return "Grade 10-12"
    else Return "Grade 8 or below")).

Definition _create_fallback_response (listing llm_response : string)
  : Res ValidationResponse :=
  let count := _calculate_word_count listing in
  res_bind (_estimate_reading_level listing) (fun level =>
  Return
    {| status := non_compliant;
       compliance_score := 5;
       issues :=
         [ {| category := CONTENT_QUALITY;
              rule_violated := "Response Format";
              current_text := "N/A";
              issue := "Unable to parse validation response";
              suggested_fix := "Please review the listing manually";
              severity := medium |} ];
       suggestions :=
         "Validation completed but response format was unexpected: "
         ++ Str.take 200 llm_response ++ "...";
       word_count := Z.of_nat count;
       reading_level := Some level |}).

(** The response built by the outer handler of [validate_listing]. *)
Definition system_error_response (listing : string) (e : exn)
  : Res ValidationResponse :=
  let count := _calculate_word_count listing in
  res_bind (_estimate_reading_level listing) (fun level =>
  Return
    {| status := non_compliant;
       compliance_score := 0;
       issues :=
         [ {| category := CONTENT_QUALITY;
              rule_violated := "System Error";
              current_text := "N/A";
              issue := "Validation failed: " ++ exn_str e;
              suggested_fix := "Please try again or contact support";
              severity := high |} ];
       suggestions :=
         "System error occurred during validation. Please try again.";
       word_count := Z.of_nat count;
       reading_level := Some level |}).

Definition system_content_text : string :=
  "You are a marketplace validator that analyzes credit card listings for compliance. Always respond with valid JSON only.".

(** The arguments of the one call to the service; the temperature is the
    binary64 number written [0.1]. *)
Definition completion_request (full_prompt : string) : ChatRequest :=
  {| model := "gpt-4o-mini";
     system_content := system_content_text;
     user_content := full_prompt;
     response_format := "json_object";
     temperature := 0x1.999999999999ap-4;
     max_tokens := 2000 |}.

(** Removal of a markdown fence, as the first statements of the inner
    [try] do it. *)
Definition clean_response (response_text : string) : string :=
  if Str.startswith "```json" response_text then
    Str.strip (Str.replace "```" "" (Str.replace "```json" "" response_text))
  else if Str.startswith "```" response_text then
    Str.strip (Str.replace "```" "" response_text)
  else response_text.

(** [validation_data.keys()] *)
Definition keys (v : pyval) : Res dict :=
  match v with
  | PDict d => Return d
  | _ =>
      Raise (mk_exn AttributeError
               ("'" ++ type_name v ++ "' object has no attribute 'keys'"))
  end.

(** The statements of the inner [try] from [json.loads] on.  The key list
    is taken for a log line; that is where a decoded value that is not a
    dict raises. *)
Definition parse_response (listing response_text : string)
  : Res ValidationResponse :=
  res_bind (Json.loads response_text) (fun decoded =>
  res_bind (keys decoded) (fun validation_data =>
  let validation_data :=
    dict_set "word_count" (PInt (Z.of_nat (_calculate_word_count listing)))
      validation_data in
  res_bind
    (if negb (dict_has "reading_level" validation_data)
        || negb (match dict_get "reading_level" validation_data with
                 | Some v => truthy v
                 | None => false
                 end)
     then res_bind (_estimate_reading_level listing) (fun level =>
          Return (dict_set "reading_level" (PStr level) validation_data))
     else Return validation_data)
    (fun validation_data => ValidationResponse_init validation_data))).

Local Open Scope m_scope.

(** The fence is removed before [json.loads], the only statement of the
    inner [try] that can raise a [JSONDecodeError]; so its handler always
    sees the cleaned text in [response_text]. *)
Definition validate_listing (self : MarketplaceValidator) (listing : string)
  : M ValidationResponse :=
  emit (Validating listing) ;;
  try_except
    (let full_prompt :=
       Str.replace "{{ listing }}" listing (validation_prompt self) in
     response <- chat_completions_create (completion_request full_prompt) ;;
     let response_text := Str.strip response in
     let response_text := clean_response response_text in
     try_except
       (lift (parse_response listing response_text))
       JSONDecodeError
       (fun _ => lift (_create_fallback_response listing response_text)))
    Exception
    (fun e => lift (system_error_response listing e)).

End Validator.

(* ====================================================================== *)
(** * [backend/main.py] *)
(* ====================================================================== *)

Module Main.
Import Models.

(** The module-level [validator]: [None] when the constructor raised a
    [ValueError]; any other exception ends the start-up. *)
Definition validator (env : Env) : Res (option Validator.MarketplaceValidator) :=
  match Validator.__init__ env None with
  | Return v => Return (Some v)
  | Raise e => if isinstance e ValueError then Return None else Raise e
  end.

(** What the framework sends back: the serialised result, or a status code
    with a detail. *)
Inductive HTTPResponse : Type :=
| OK (result : ValidationResponse)
| HTTPError (status_code : Z) (detail : string).

Definition HTTP_422_UNPROCESSABLE_ENTITY : Z := 422.
Definition HTTP_500_INTERNAL_SERVER_ERROR : Z := 500.
Definition HTTP_503_SERVICE_UNAVAILABLE : Z := 503.

(** The handler of [POST /validate]; a raised [HTTPException] becomes the
    response of that status. *)
Definition validate_listing (validator : option Validator.MarketplaceValidator)
  (request : ValidationRequest) : M HTTPResponse :=
  match validator with
  | None =>
      ret (HTTPError HTTP_503_SERVICE_UNAVAILABLE
             "Validator service is not available. Please check API configuration.")
  | Some v =>
      fun w =>
        match Validator.validate_listing v (listing request) w with
        | (Return result, w') => (Return (OK result), w')
        | (Raise e, w') =>
            (Return (HTTPError HTTP_500_INTERNAL_SERVER_ERROR
                       ("Validation failed: " ++ exn_str e)), w')
        end
  end.

(** The route: the body is validated against [ValidationRequest] first, and
    the handler runs only on a valid request. *)
Definition post_validate (validator : option Validator.MarketplaceValidator)
  (body : dict) : M HTTPResponse :=
  match ValidationRequest_init body with
  | Raise _ =>
      ret (HTTPError HTTP_422_UNPROCESSABLE_ENTITY "request validation failed")
  | Return request => validate_listing validator request
  end.

End Main.

(* ====================================================================== *)
(** * Vocabulary of the specification *)
(* ====================================================================== *)

Module Spec.
Import Models Validator.

(** The number of white-space-delimited tokens of a text, counted without
    building them: a token starts at each character that is not white space
    and does not follow one. *)
Fixpoint token_count_from (in_token : bool) (s : string) : nat :=
  match s with
  | EmptyString => 0
  | String c s' =>
      if Str.isspace c then token_count_from false s'
      else (if in_token then 0 else 1) + token_count_from true s'
  end.

Definition token_count (s : string) : nat := token_count_from false s.

Fixpoint all_space (s : string) : bool :=
  match s with
  | EmptyString => true
  | String c s' => Str.isspace c && all_space s'
  end.

Fixpoint has_char (c : ascii) (s : string) : bool :=
  match s with
  | EmptyString => false
  | String c' s' => Ascii.eqb c c' || has_char c s'
  end.

(** No occurrence of [old] in [a ++ b] starts inside [a]. *)
Fixpoint no_match_within (old a b : string) : bool :=
  match a with
  | EmptyString => true
  | String _ a' =>
      negb (Str.startswith old (a ++ b)) && no_match_within old a' b
  end.

(** The service answers every request with [raw], or raises [e]. *)
Definition answering (raw : string) : World :=
  mk_world (fun _ => Return raw) [].

Definition failing (e : exn) : World :=
  mk_world (fun _ => Raise e) [].

(** The prompt composed for a listing, and the text that the decoder is
    given for a raw answer. *)
Definition prompt_for (self : MarketplaceValidator) (listing : string)
  : string :=
  Str.replace "{{ listing }}" listing (validation_prompt self).

Definition cleaned (raw : string) : string :=
  clean_response (Str.strip raw).

(** The two handlers of [validate_listing] as one function of the cleaned
    text: the fallback response on a [JSONDecodeError], the system-error
    response on any other exception, also on one raised while the fallback
    response is built. *)
Definition interpret (listing text : string) : Res ValidationResponse :=
  match parse_response listing text with
  | Return r => Return r
  | Raise e =>
      if isinstance e JSONDecodeError then
        match _create_fallback_response listing text with
        | Return r => Return r
        | Raise e' => system_error_response listing e'
        end
      else system_error_response listing e
  end.

(** The keyword arguments that [parse_response] hands to the schema for a
    decoded object [d]: the word count is overwritten, and the reading level
    is filled in with [level] when [d] has none or a false one. *)
Definition needs_level (d : dict) : bool :=
  negb (dict_has "reading_level" d)
  || negb (match dict_get "reading_level" d with
           | Some v => truthy v
           | None => false
           end).

Definition with_count (listing : string) (d : dict) : dict :=
  dict_set "word_count" (PInt (Z.of_nat (_calculate_word_count listing))) d.

Definition with_metrics (listing level : string) (d : dict) : dict :=
  if needs_level (with_count listing d)
  then dict_set "reading_level" (PStr level) (with_count listing d)
  else with_count listing d.

(** The one issue of the fallback response and of the system-error
    response. *)
Definition response_format_issue : ValidationIssue :=
  {| category := CONTENT_QUALITY;
     rule_violated := "Response Format";
     current_text := "N/A";
     issue := "Unable to parse validation response";
     suggested_fix := "Please review the listing manually";
     severity := medium |}.

Definition system_error_issue (message : string) : ValidationIssue :=
  {| category := CONTENT_QUALITY;
     rule_violated := "System Error";
     current_text := "N/A";
     issue := "Validation failed: " ++ message;
     suggested_fix := "Please try again or contact support";
     severity := high |}.

(** A payload wrapped in a markdown fence with the language tag [tag]
    ("json", or empty for a fence without tag). *)
Definition fenced (tag payload : string) : string :=
  "```" ++ tag ++ LF ++ payload ++ LF ++ "```".

(** The shape rules on a decoded payload.  [in_values]: the field holds one
    of the values of a closed set. *)
Definition in_values {A : Type} (value : A -> string) (members : list A)
  (v : option pyval) : bool :=
  match v with
  | Some (PStr s) => existsb (fun m => String.eqb (value m) s) members
  | _ => false
  end.

(** The score breaks its rule when it is a number outside [0, 10], or is
    missing, null, an array or an object (a boolean or a string is converted
    by the schema and is not judged here). *)
Definition score_violation (v : option pyval) : bool :=
  match v with
  | Some (PFloat f) => negb (float_between 0 f 10)
  | Some (PInt z) => negb (float_between 0 (float_of_int z) 10)
  | Some (PBool _) | Some (PStr _) => false
  | _ => true
  end.

(** An issue breaks its rule when it is not an object, or when its category
    or its severity is outside its set. *)
Definition issue_violation (i : pyval) : bool :=
  match i with
  | PDict d =>
      negb (in_values category_value categories (dict_get "category" d))
      || negb (in_values severity_value severities (dict_get "severity" d))
  | _ => true
  end.

(** A decoded value breaks the shape rules when it is not an object, or its
    status is outside the two values, or its score or one of its issues
    breaks its rule. *)
Definition shape_violation (v : pyval) : bool :=
  match v with
  | PDict d =>
      negb (in_values status_value statuses (dict_get "status" d))
      || score_violation (dict_get "compliance_score" d)
      || match dict_get "issues" d with
         | Some (PList l) => existsb issue_violation l
         | _ => false
         end
  | _ => true
  end.

(** The JSON object that states a result: every field of the schema, in
    its order, with [reported_count] as the producer's own word count. *)
Definition encode_issue (i : ValidationIssue) : pyval :=
  PDict [ ("category", PStr (category_value (category i)));
          ("rule_violated", PStr (rule_violated i));
          ("current_text", PStr (current_text i));
          ("issue", PStr (issue i));
          ("suggested_fix", PStr (suggested_fix i));
          ("severity", PStr (severity_value (severity i))) ].

Definition encode_response (r : ValidationResponse) (reported_count : Z)
  : dict :=
  ([ ("status", PStr (status_value (status r)));
     ("compliance_score", PFloat (compliance_score r));
     ("issues", PList (map encode_issue (issues r)));
     ("suggestions", PStr (suggestions r));
     ("word_count", PInt reported_count) ]
   ++ match reading_level r with
      | Some level => [("reading_level", PStr level)]
      | None => []
      end)%list.

(** The reading level of a result built from a payload that states [r]:
    the stated one when it is not empty, and [level] otherwise. *)
Definition kept_level (r : ValidationResponse) (level : string) : string :=
  match reading_level r with
  | Some stated => if Str.is_empty stated then level else stated
  | None => level
  end.

(** The three grades of the reading-level heuristic. *)
Definition grades : list string :=
  ["Grade 12+"; "Grade 10-12"; "Grade 8 or below"].

(** Statements of the specification that the program does not satisfy, as
    they are written. *)

(** Reading level: no period, or no word, gives "Unknown". *)
Definition unknown_level_claim (text : string) : Prop :=
  Str.contains "." text = false \/ Str.split text = [] ->
  _estimate_reading_level text = Return "Unknown".

(** Malformed output: the fallback response, with the first 200 characters
    of the raw answer in the suggestions. *)
Definition malformed_output_claim (self : MarketplaceValidator)
  (listing raw : string) : Prop :=
  (exists e, Json.loads (cleaned raw) = Raise e) ->
  exists r level,
    fst (validate_listing self listing (answering raw)) = Return r
    /\ status r = non_compliant
    /\ compliance_score r = 5%float
    /\ issues r = [response_format_issue]
    /\ Str.contains (Str.take 200 raw) (suggestions r) = true
    /\ word_count r = Z.of_nat (_calculate_word_count listing)
    /\ _estimate_reading_level listing = Return level
    /\ reading_level r = Some level.

(** Ill-shaped output: the fallback response, not the system-error one. *)
Definition ill_shaped_claim (self : MarketplaceValidator)
  (listing raw : string) : Prop :=
  forall v,
    Json.loads (cleaned raw) = Return v -> shape_violation v = true ->
    exists r i,
      fst (validate_listing self listing (answering raw)) = Return r
      /\ compliance_score r = 5%float
      /\ issues r = [i]
      /\ rule_violated i = "Response Format".

(** Fences: a payload in a fence is interpreted as the payload alone. *)
Definition fence_claim (self : MarketplaceValidator)
  (listing tag payload : string) : Prop :=
  fst (validate_listing self listing (answering (fenced tag payload)))
  = fst (validate_listing self listing (answering payload)).

End Spec.

(* ====================================================================== *)
(** * Sample runs *)
(* ====================================================================== *)

(** Concrete start-up environments, listings and answers of the service,
    used to run the program. *)
Module Samples.
Import Models Validator Spec.

Definition template : string :=
  "Check this credit card listing against the marketplace policy."
  ++ LF ++ "Listing: {{ listing }}" ++ LF.

Definition missing_file : exn :=
  mk_exn FileNotFoundError "No such file or directory".

Definition timeout : exn := mk_exn APIError "Request timed out.".

Definition env_ready : Env := mk_env (Some "sk-test") (Return template).

Definition env_no_template : Env :=
  mk_env (Some "sk-test") (Raise missing_file).

Definition env_no_key : Env := mk_env None (Return template).

(** The validators that [__init__] builds in [env_ready] and in
    [env_no_template]. *)
Definition ready : MarketplaceValidator :=
  mk_validator "sk-test" (template ++ structured_output_instruction).

Definition bare : MarketplaceValidator :=
  mk_validator "sk-test" _get_fallback_prompt.

Definition promo : string :=
  "Get 0% APR for 12 months! Apply now and enjoy amazing rewards!".

Definition platinum : string := "Platinum card with 0% intro APR.".

Definition greeting : string := "Hello there.".

(** Ten periods: one word, and no sentence that is not blank. *)
Definition dots : string := "..........".

(** A full verdict that reports a wrong word count and no reading level,
    inside a fence. *)
Definition verdict : string :=
  dq ("{'status': 'non_compliant', 'compliance_score': 6.5, 'issues': "
      ++ "[{'category': 'Brand & Tone Alignment', "
      ++ "'rule_violated': 'Prohibited Language', "
      ++ "'current_text': 'amazing', 'issue': 'Superlative', "
      ++ "'suggested_fix': 'Describe the rewards', 'severity': 'medium'}], "
      ++ "'suggestions': 'Tone it down.', 'word_count': 99}").

(** A verdict with all required fields and no reading level. *)
Definition terse_verdict : string :=
  dq ("{'status': 'compliant', 'compliance_score': 9.0, 'issues': [], "
      ++ "'suggestions': 'None.', 'word_count': 1}").

(** The result that [terse_verdict] states. *)
Definition terse_result : ValidationResponse :=
  {| status := compliant;
     compliance_score := 9;
     issues := [];
     suggestions := "None.";
     word_count := 1;
     reading_level := None |}.

(** A verdict whose suggestions mention a fence. *)
Definition fence_advice : string :=
  dq ("{'status': 'compliant', 'compliance_score': 9, 'issues': [], "
      ++ "'suggestions': 'Do not wrap the terms in ``` marks.', "
      ++ "'word_count': 2, 'reading_level': 'Grade 8'}").

(** A verdict whose status is outside the two values. *)
Definition odd_status : string :=
  dq ("{'status': 'maybe', 'compliance_score': 7, "
      ++ "'suggestions': 'None.'}").

Definition prose : string := "I cannot judge this listing.".

(** A request body for a listing. *)
Definition body (listing : string) : dict := [("listing", PStr listing)].

End Samples.

(* ====================================================================== *)
(** * The health endpoint *)
(* ====================================================================== *)

(** [HealthResponse] of [backend/models.py] and [health_check] of
    [backend/main.py]: the service is healthy when the module-level
    validator is there. *)
Module Health.

Record HealthResponse : Type := mk_health {
  status : string;
  version : string
}.

Definition health_check (validator : option Validator.MarketplaceValidator)
  : HealthResponse :=
  {| status := match validator with
               | Some _ => "healthy"
               | None => "degraded"
               end;
     version := "1.0.0" |}.

End Health.

(* ====================================================================== *)
(** * Further vocabulary *)
(* ====================================================================== *)

Module Terms.
Import Models Validator.

(** The placeholder of the policy template. *)
Definition placeholder : string := "{{ listing }}".

(** Every character of [s] satisfies [p]. *)
Fixpoint all_chars (p : ascii -> bool) (s : string) : bool :=
  match s with
  | EmptyString => true
  | String c s' => p c && all_chars p s'
  end.

Definition dot_or_space (c : ascii) : bool :=
  Ascii.eqb c "." || Str.isspace c.

(** A word: not empty, and without white space. *)
Definition word_like (w : string) : bool :=
  negb (Str.is_empty w) && all_chars (fun c => negb (Str.isspace c)) w.

(** A sentence that the reading-level heuristic does not count. *)
Definition blank (s : string) : bool := Str.is_empty (Str.strip s).

(** The status code of a response of the route. *)
Definition status_code (r : Main.HTTPResponse) : Z :=
  match r with
  | Main.OK _ => 200
  | Main.HTTPError code _ => code
  end.

(** The four labels of the reading-level heuristic. *)
Definition levels : list string :=
  ["Unknown"; "Grade 12+"; "Grade 10-12"; "Grade 8 or below"].

(** The keys of the fields of [ValidationResponse] that have no default. *)
Definition required_keys : list string :=
  ["status"; "compliance_score"; "suggestions"; "word_count"].

(** The keys of all fields of [ValidationResponse]. *)
Definition field_keys : list string :=
  ["status"; "compliance_score"; "issues"; "suggestions"; "word_count";
   "reading_level"].

End Terms.

(* ====================================================================== *)
(** * Further sample runs *)
(* ====================================================================== *)

Module MoreSamples.
Import Models Validator Spec.

(** A verdict that states its reading level. *)
Definition leveled_verdict : string :=
  dq ("{'status': 'compliant', 'compliance_score': 9.0, 'issues': [], "
      ++ "'suggestions': 'None.', 'word_count': 7, "
      ++ "'reading_level': 'Grade 9'}").

(** The result that [leveled_verdict] states. *)
Definition leveled_result : ValidationResponse :=
  {| status := compliant;
     compliance_score := 9;
     issues := [];
     suggestions := "None.";
     word_count := 7;
     reading_level := Some "Grade 9" |}.

End MoreSamples.

(* ====================================================================== *)
(** * [validate_listing] for any decoder *)
(* ====================================================================== *)

(** [json.loads] belongs to the standard library, and [Json.loads] models it
    within the alphabet and without the limits of the interpreter.  What
    [validate_listing] does with the outcome of the decoder does not depend
    on how the decoder works: here the decoder is an argument, [loads], and
    the statements of the inner [try] and of the method are those of
    [Validator] otherwise.  With [Json.loads] for [loads] these are
    [Validator.parse_response] and [Validator.validate_listing]. *)
Module AnyDecoder.
Import Models Validator.

Definition parse_response (loads : string -> Res pyval)
  (listing response_text : string) : Res ValidationResponse :=
  res_bind (loads response_text) (fun decoded =>
  res_bind (keys decoded) (fun validation_data =>
  let validation_data :=
    dict_set "word_count" (PInt (Z.of_nat (_calculate_word_count listing)))
      validation_data in
  res_bind
    (if negb (dict_has "reading_level" validation_data)
        || negb (match dict_get "reading_level" validation_data with
                 | Some v => truthy v
                 | None => false
                 end)
     then res_bind (_estimate_reading_level listing) (fun level =>
          Return (dict_set "reading_level" (PStr level) validation_data))
     else Return validation_data)
    (fun validation_data => ValidationResponse_init validation_data))).

Local Open Scope m_scope.

Definition validate_listing (loads : string -> Res pyval)
  (self : MarketplaceValidator) (listing : string) : M ValidationResponse :=
  emit (Validating listing) ;;
  try_except
    (let full_prompt :=
       Str.replace "{{ listing }}" listing (validation_prompt self) in
     response <- chat_completions_create (completion_request full_prompt) ;;
     let response_text := Str.strip response in
     let response_text := clean_response response_text in
     try_except
       (lift (parse_response loads listing response_text))
       JSONDecodeError
       (fun _ => lift (_create_fallback_response listing response_text)))
    Exception
    (fun e => lift (system_error_response listing e)).

End AnyDecoder.

(* ====================================================================== *)
(** * The definitions at work *)
(* ====================================================================== *)

Module Examples.
Import Models Validator Spec Samples.

Example split_words :
  Str.split ("  Get 0% APR" ++ LF ++ "now ") = ["Get"; "0%"; "APR"; "now"].
Proof. reflexivity. Qed.

Example split_sentences :
  Str.split_on "." "a.b..c." = ["a"; "b"; ""; "c"; ""].
Proof. reflexivity. Qed.

Example replace_every_occurrence :
  Str.replace "```" "" "```json x ``` y```" = "json x  y".
Proof. reflexivity. Qed.

Example replace_without_overlap : Str.replace "aa" "b" "aaaaa" = "bba".
Proof. reflexivity. Qed.

Example replace_empty_pattern : Str.replace "" "-" "abc" = "-a-b-c-".
Proof. reflexivity. Qed.

Example strip_both_ends : Str.strip ("  a b" ++ LF) = "a b".
Proof. reflexivity. Qed.

Example loads_object :
  Json.loads (dq "{'a': [1, -2.5, true, null], 'b': {}, 'a': 'x\u0041'}")
  = Return (PDict [("a", PStr "xA"); ("b", PDict [])]).
Proof. vm_compute. reflexivity. Qed.

Example loads_blank : Json.loads "  " = Raise Json.decode_error.
Proof. reflexivity. Qed.

Example loads_extra_data : Json.loads "{} x" = Raise Json.decode_error.
Proof. reflexivity. Qed.

Example loads_trailing_comma : Json.loads "[1,]" = Raise Json.decode_error.
Proof. reflexivity. Qed.

Example true_div_rounds :
  PrimFloat.eqb (true_div 11 3) (PrimFloat.div 11 3) = true.
Proof. reflexivity. Qed.

Example promo_level :
  _estimate_reading_level promo = Return "Grade 8 or below".
Proof. vm_compute. reflexivity. Qed.

Example greeting_level :
  _estimate_reading_level greeting = Return "Grade 10-12".
Proof. vm_compute. reflexivity. Qed.

Example start_ready : __init__ env_ready None = Return ready.
Proof. reflexivity. Qed.

Example start_without_key : Main.validator env_no_key = Return None.
Proof. reflexivity. Qed.

Example verdict_result :
  fst (validate_listing ready promo (answering (fenced "json" verdict)))
  = Return
      {| status := non_compliant;
         compliance_score := 6.5;
         issues :=
           [ {| category := BRAND_TONE;
                rule_violated := "Prohibited Language";
                current_text := "amazing";
                issue := "Superlative";
                suggested_fix := "Describe the rewards";
                severity := medium |} ];
         suggestions := "Tone it down.";
         word_count := 12;
         reading_level := Some "Grade 8 or below" |}.
Proof. vm_compute. reflexivity. Qed.

Example service_failure_result :
  fst (validate_listing ready greeting (failing timeout))
  = Return
      {| status := non_compliant;
         compliance_score := 0;
         issues := [system_error_issue "Request timed out."];
         suggestions :=
           "System error occurred during validation. Please try again.";
         word_count := 2;
         reading_level := Some "Grade 10-12" |}.
Proof. vm_compute. reflexivity. Qed.

End Examples.

(* ====================================================================== *)
(** * Facts about strings *)
(* ====================================================================== *)

Module StrFacts.
Import Spec.

Lemma append_assoc (a b c : string) : (a ++ b) ++ c = a ++ b ++ c.
Proof. induction a as [|x a IH]; simpl; [reflexivity | now rewrite IH]. Qed.

Lemma append_empty_r (a : string) : a ++ "" = a.
Proof. induction a as [|x a IH]; simpl; [reflexivity | now rewrite IH]. Qed.

Lemma is_empty_true (s : string) : Str.is_empty s = true <-> s = "".
Proof. destruct s; simpl; split; intros H; congruence. Qed.

(** ** [startswith] and [contains] *)

Lemma startswith_app (p s : string) : Str.startswith p (p ++ s) = true.
Proof.
  induction p as [|a p IH]; simpl; [reflexivity|].
  now rewrite Ascii.eqb_refl, IH.
Qed.

Lemma startswith_app_l (p s t : string) :
  Str.startswith p s = true -> Str.startswith p (s ++ t) = true.
Proof.
  revert s; induction p as [|a p IH]; intros s H; [reflexivity|].
  destruct s as [|b s]; simpl in *; [discriminate|].
  apply andb_true_iff in H as [Hab Hps].
  now rewrite Hab, (IH _ Hps).
Qed.

Lemma startswith_prefix (p q s : string) :
  Str.startswith (p ++ q) s = true -> Str.startswith p s = true.
Proof.
  revert s; induction p as [|a p IH]; intros s H; [reflexivity|].
  destruct s as [|b s]; simpl in *; [discriminate|].
  apply andb_true_iff in H as [Hab Hps].
  now rewrite Hab, (IH _ Hps).
Qed.

Lemma contains_unfold (p s : string) :
  Str.contains p s
  = Str.startswith p s
    || match s with
       | EmptyString => false
       | String _ s' => Str.contains p s'
       end.
Proof. destruct s; reflexivity. Qed.

Lemma contains_app_l (p s t : string) :
  Str.contains p s = true -> Str.contains p (s ++ t) = true.
Proof.
  induction s as [|c s IH]; intros H.
  - rewrite contains_unfold in H. rewrite orb_false_r in H.
    rewrite contains_unfold. now rewrite (startswith_app_l _ _ t H).
  - rewrite contains_unfold in H. apply orb_true_iff in H as [H|H].
    + rewrite contains_unfold. now rewrite (startswith_app_l _ _ t H).
    + simpl append. rewrite contains_unfold. rewrite (IH H).
      apply orb_true_r.
Qed.

Lemma contains_app_r (p s t : string) :
  Str.contains p t = true -> Str.contains p (s ++ t) = true.
Proof.
  intros H; induction s as [|c s IH]; [exact H|].
  simpl append. rewrite contains_unfold, IH. apply orb_true_r.
Qed.

Lemma contains_middle (p a b : string) : Str.contains p (a ++ p ++ b) = true.
Proof.
  apply contains_app_r. rewrite contains_unfold, startswith_app. reflexivity.
Qed.

Lemma contains_prefix (p q s : string) :
  Str.contains (p ++ q) s = true -> Str.contains p s = true.
Proof.
  induction s as [|c s IH]; intros H; rewrite contains_unfold in H |- *.
  - rewrite orb_false_r in *. eapply startswith_prefix; eassumption.
  - apply orb_true_iff in H as [H|H].
    + now rewrite (startswith_prefix _ _ _ H).
    + rewrite (IH H). apply orb_true_r.
Qed.

Lemma not_contains_startswith (p s : string) :
  Str.contains p s = false -> Str.startswith p s = false.
Proof.
  rewrite contains_unfold. intros H. now apply orb_false_iff in H as [H _].
Qed.

(** ** [lstrip], [rstrip], [strip] *)

Lemma rstrip_all_space (s : string) : all_space s = true -> Str.rstrip s = "".
Proof.
  induction s as [|c s IH]; simpl; [reflexivity|].
  intros H. apply andb_true_iff in H as [Hc Hs].
  now rewrite (IH Hs), Hc.
Qed.

Lemma rstrip_empty (s : string) : Str.rstrip s = "" -> all_space s = true.
Proof.
  induction s as [|c s IH]; simpl; [reflexivity|].
  destruct (Str.rstrip s) eqn:E.
  - destruct (Str.isspace c); [intros _; now apply IH | discriminate].
  - discriminate.
Qed.

Lemma lstrip_all_space (s : string) : all_space s = true -> Str.lstrip s = "".
Proof.
  induction s as [|c s IH]; simpl; [reflexivity|].
  intros H. apply andb_true_iff in H as [Hc Hs]. now rewrite Hc, IH.
Qed.

Lemma lstrip_empty (s : string) : Str.lstrip s = "" -> all_space s = true.
Proof.
  induction s as [|c s IH]; simpl; [reflexivity|].
  destruct (Str.isspace c); [now apply IH | discriminate].
Qed.

(** [rstrip s] is a prefix of [s], and what it drops is white space. *)
Lemma rstrip_prefix (s : string) :
  exists t, s = Str.rstrip s ++ t /\ all_space t = true.
Proof.
  induction s as [|c s [t [Ht Hsp]]]; simpl.
  - now exists "".
  - destruct (Str.rstrip s) as [|d r] eqn:E.
    + destruct (Str.isspace c) eqn:Hc.
      * exists (String c s). split; [reflexivity|]. simpl. rewrite Hc.
        now apply rstrip_empty.
      * exists s. split; [reflexivity|]. now apply rstrip_empty.
    + exists t. split; [|exact Hsp]. simpl in *. now f_equal.
Qed.

Lemma all_space_app (s t : string) :
  all_space (s ++ t) = all_space s && all_space t.
Proof.
  induction s as [|c s IH]; simpl; [reflexivity|].
  now rewrite IH, andb_assoc.
Qed.

Lemma strip_empty_iff (s : string) : Str.strip s = "" <-> all_space s = true.
Proof.
  unfold Str.strip. split.
  - intros H. apply lstrip_empty in H.
    destruct (rstrip_prefix s) as [t [Ht Hsp]].
    rewrite Ht, all_space_app, H, Hsp. reflexivity.
  - intros H. now rewrite (rstrip_all_space _ H).
Qed.

Lemma rstrip_app_space (s t : string) :
  all_space t = true -> Str.rstrip (s ++ t) = Str.rstrip s.
Proof.
  intros Ht. induction s as [|c s IH]; simpl.
  - now apply rstrip_all_space.
  - now rewrite IH.
Qed.

Lemma rstrip_app_fixed (s t : string) :
  Str.rstrip t = t -> t <> "" -> Str.rstrip (s ++ t) = s ++ t.
Proof.
  intros Ht Hne. induction s as [|c s IH]; simpl; [exact Ht|].
  rewrite IH. destruct (s ++ t) eqn:E; [|reflexivity].
  destruct s; simpl in E; [congruence | discriminate].
Qed.

Lemma lstrip_rstrip_cons_space (c : ascii) (s : string) :
  Str.isspace c = true ->
  Str.lstrip (Str.rstrip (String c s)) = Str.lstrip (Str.rstrip s).
Proof.
  intros Hc. simpl. destruct (Str.rstrip s) eqn:E.
  - now rewrite Hc.
  - simpl. now rewrite Hc.
Qed.

(** A payload between two line feeds strips to the stripped payload. *)
Lemma strip_between_lines (s : string) :
  Str.strip (LF ++ s ++ LF) = Str.strip s.
Proof.
  unfold Str.strip.
  change (LF ++ s ++ LF) with (String (ascii_of_nat 10) (s ++ LF)).
  rewrite lstrip_rstrip_cons_space by reflexivity.
  now rewrite rstrip_app_space by reflexivity.
Qed.

Lemma contains_lstrip (p s : string) :
  Str.contains p (Str.lstrip s) = true -> Str.contains p s = true.
Proof.
  induction s as [|c s IH]; simpl Str.lstrip; [trivial|].
  destruct (Str.isspace c); [|trivial].
  intros H. rewrite contains_unfold, (IH H). apply orb_true_r.
Qed.

Lemma contains_rstrip (p s : string) :
  Str.contains p (Str.rstrip s) = true -> Str.contains p s = true.
Proof.
  intros H. destruct (rstrip_prefix s) as [t [Ht _]].
  rewrite Ht. now apply contains_app_l.
Qed.

Lemma contains_strip (p s : string) :
  Str.contains p s = false -> Str.contains p (Str.strip s) = false.
Proof.
  intros H. destruct (Str.contains p (Str.strip s)) eqn:E; [|reflexivity].
  unfold Str.strip in E. apply contains_lstrip, contains_rstrip in E.
  congruence.
Qed.

End StrFacts.

(* ====================================================================== *)
(** * Facts about [replace] and fences *)
(* ====================================================================== *)

Module ReplaceFacts.
Import Models Validator Spec StrFacts.

Section Replace.
Variables (a0 : ascii) (old0 new : string).
Local Abbreviation old := (String a0 old0).

(** Once a match is found, its characters are passed over. *)
Lemma replace_from_skip (u s : string) :
  Str.replace_from old new (String.length u) (u ++ s)
  = Str.replace_from old new 0 s.
Proof.
  induction u as [|c u IH]; simpl.
  - destruct s; reflexivity.
  - exact IH.
Qed.

Lemma replace_from_match (s : string) :
  Str.replace_from old new 0 (old ++ s)
  = new ++ Str.replace_from old new 0 s.
Proof.
  assert (Hlen : String.length old - 1 = String.length old0)
    by (simpl; lia).
  change (old ++ s) with (String a0 (old0 ++ s)).
  cbn [Str.replace_from].
  change (String a0 (old0 ++ s)) with (old ++ s).
  rewrite startswith_app, Hlen.
  f_equal. apply replace_from_skip.
Qed.

Lemma replace_from_no_match (a b : string) :
  no_match_within old a b = true ->
  Str.replace_from old new 0 (a ++ b)
  = a ++ Str.replace_from old new 0 b.
Proof.
  induction a as [|c a IH]; intros H; [reflexivity|].
  cbn [no_match_within] in H. apply andb_true_iff in H as [Hc Ha].
  apply negb_true_iff in Hc.
  simpl append in *. cbn [Str.replace_from]. rewrite Hc.
  now rewrite (IH Ha).
Qed.

(** A match that starts in [u] and runs into [String c b] stays inside
    [u] when [c] does not occur in the pattern. *)
Lemma startswith_stays (p u b : string) (c : ascii) :
  has_char c p = false ->
  Str.startswith p (u ++ String c b) = true -> Str.startswith p u = true.
Proof.
  revert u; induction p as [|x p IH]; intros u Hc H; [reflexivity|].
  cbn [has_char] in Hc. apply orb_false_iff in Hc as [Hx Hp].
  destruct u as [|y u]; simpl in H |- *.
  - apply andb_true_iff in H as [H _].
    rewrite Ascii.eqb_sym in Hx. congruence.
  - apply andb_true_iff in H as [Hxy H]. rewrite Hxy. now apply IH.
Qed.

Lemma no_match_within_payload (p b : string) (c : ascii) :
  has_char c old = false ->
  Str.contains old p = false ->
  no_match_within old p (String c b) = true.
Proof.
  intros Hc. induction p as [|x p IH]; intros H; [reflexivity|].
  rewrite contains_unfold in H. apply orb_false_iff in H as [Hs Hp].
  cbn [no_match_within]. rewrite (IH Hp), andb_true_r.
  apply negb_true_iff.
  destruct (Str.startswith old (String x p ++ String c b)) eqn:E;
    [|reflexivity].
  apply startswith_stays in E; [congruence | exact Hc].
Qed.

(** A pattern without line feed, absent from the payload, leaves a
    payload between two line feeds as it is. *)
Lemma replace_from_between_lines (p t : string) :
  has_char (ascii_of_nat 10) old = false ->
  Str.contains old p = false ->
  Str.replace_from old new 0 (LF ++ p ++ LF ++ t)
  = LF ++ p ++ Str.replace_from old new 0 (LF ++ t).
Proof.
  intros Hc Hp.
  rewrite (replace_from_no_match LF).
  - f_equal. apply replace_from_no_match.
    now apply no_match_within_payload.
  - cbn [no_match_within LF]. rewrite andb_true_r. apply negb_true_iff.
    cbn [has_char] in Hc.
    apply orb_false_iff in Hc as [Hc _].
    simpl. rewrite Ascii.eqb_sym, Hc. reflexivity.
Qed.

Lemma replace_from_absent (s : string) :
  Str.contains old s = false -> Str.replace_from old new 0 s = s.
Proof.
  induction s as [|c s IH]; intros H; [reflexivity|].
  rewrite contains_unfold in H. apply orb_false_iff in H as [Hs Hc].
  cbn [Str.replace_from]. rewrite Hs. now rewrite (IH Hc).
Qed.
End Replace.

Lemma replace_absent (old new s : string) :
  old <> "" -> Str.contains old s = false -> Str.replace old new s = s.
Proof.
  destruct old as [|a old]; [congruence|]. intros _ H.
  now apply replace_from_absent.
Qed.

(** ** The fence is removed and nothing else *)

Lemma strip_fenced (tag payload : string) :
  Str.strip (fenced tag payload) = fenced tag payload.
Proof.
  unfold Str.strip, fenced.
  replace ("```" ++ tag ++ LF ++ payload ++ LF ++ "```")
    with (("```" ++ tag ++ LF ++ payload ++ LF) ++ "```")
    by (now rewrite !append_assoc).
  rewrite rstrip_app_fixed by (reflexivity || discriminate).
  reflexivity.
Qed.

Lemma clean_fenced_json (payload : string) :
  Str.contains "```" payload = false ->
  clean_response (fenced "json" payload) = Str.strip payload.
Proof.
  intros H. unfold clean_response, fenced.
  change ("```" ++ "json" ++ LF ++ payload ++ LF ++ "```")
    with ("```json" ++ LF ++ payload ++ LF ++ "```").
  rewrite startswith_app.
  unfold Str.replace at 2. rewrite replace_from_match.
  rewrite replace_from_between_lines; [|reflexivity|].
  - change (Str.replace_from "```json" "" 0 (LF ++ "```")) with (LF ++ "```").
    change ("" ++ LF ++ payload ++ LF ++ "```")
      with (LF ++ payload ++ LF ++ "```").
    unfold Str.replace.
    rewrite replace_from_between_lines; [|reflexivity|exact H].
    change (Str.replace_from "```" "" 0 (LF ++ "```")) with LF.
    apply strip_between_lines.
  - destruct (Str.contains "```json" payload) eqn:E; [|reflexivity].
    change "```json" with ("```" ++ "json") in E.
    apply contains_prefix in E. congruence.
Qed.

Lemma clean_fenced_plain (payload : string) :
  Str.contains "```" payload = false ->
  clean_response (fenced "" payload) = Str.strip payload.
Proof.
  intros H. unfold clean_response, fenced.
  change ("```" ++ "" ++ LF ++ payload ++ LF ++ "```")
    with ("```" ++ LF ++ payload ++ LF ++ "```").
  replace (Str.startswith "```json" ("```" ++ LF ++ payload ++ LF ++ "```"))
    with false by reflexivity.
  rewrite startswith_app.
  unfold Str.replace. rewrite replace_from_match.
  rewrite replace_from_between_lines; [|reflexivity|exact H].
  change (Str.replace_from "```" "" 0 (LF ++ "```")) with LF.
  apply strip_between_lines.
Qed.

Lemma clean_unfenced (text : string) :
  Str.contains "```" text = false -> clean_response text = text.
Proof.
  intros H. unfold clean_response.
  assert (H3 : Str.startswith "```" text = false)
    by now apply not_contains_startswith.
  destruct (Str.startswith "```json" text) eqn:E.
  - change "```json" with ("```" ++ "json") in E.
    apply startswith_prefix in E. congruence.
  - now rewrite H3.
Qed.

(** The decoder is given the same text for a fenced payload and for the
    payload alone. *)
Lemma cleaned_fenced (tag payload : string) :
  tag = "json" \/ tag = "" ->
  Str.contains "```" payload = false ->
  cleaned (fenced tag payload) = cleaned payload.
Proof.
  intros Htag H. unfold cleaned. rewrite strip_fenced.
  rewrite (clean_unfenced (Str.strip payload)) by now apply contains_strip.
  destruct Htag as [-> | ->];
    [now apply clean_fenced_json | now apply clean_fenced_plain].
Qed.

End ReplaceFacts.

(* ====================================================================== *)
(** * Facts about the text metrics *)
(* ====================================================================== *)

Module MetricsFacts.
Import Models Validator Spec StrFacts.

(** ** Words *)

Lemma split_tokens (s : string) :
  List.length (Str.split s) = token_count_from false s
  /\ token_count_from true s + (if Str.head_is_word s then 1 else 0)
     = List.length (Str.split s).
Proof.
  induction s as [|c s [IHa IHb]]; [split; reflexivity|].
  cbn [Str.split token_count_from Str.head_is_word].
  destruct (Str.isspace c) eqn:Hc; cbn [negb].
  - rewrite IHa. split; [reflexivity | lia].
  - destruct (Str.head_is_word s) eqn:Hh.
    + destruct (Str.split s) as [|w ws] eqn:E; cbn [List.length] in *;
        split; lia.
    + cbn [List.length]. split; lia.
Qed.

(** The word count of the program is the number of tokens. *)
Lemma word_count_is_token_count (s : string) :
  _calculate_word_count s = token_count s.
Proof. apply split_tokens. Qed.

Lemma token_count_all_space (b : bool) (s : string) :
  all_space s = true -> token_count_from b s = 0.
Proof.
  revert b; induction s as [|c s IH]; intros b H; [reflexivity|].
  cbn [all_space] in H. apply andb_true_iff in H as [Hc Hs].
  cbn [token_count_from]. rewrite Hc. now apply IH.
Qed.

Lemma token_count_zero (b : bool) (s : string) :
  token_count_from b s = 0 -> b = false -> all_space s = true.
Proof.
  intros H ->. induction s as [|c s IH]; [reflexivity|].
  cbn [token_count_from all_space] in *.
  destruct (Str.isspace c); [now apply IH | discriminate].
Qed.

Lemma split_nil_iff (s : string) : Str.split s = [] <-> all_space s = true.
Proof.
  pose proof (split_tokens s) as [Ha _]. split; intros H.
  - apply (token_count_zero false); [|reflexivity].
    rewrite <- Ha, H. reflexivity.
  - apply length_zero_iff_nil. rewrite Ha.
    now apply token_count_all_space.
Qed.

(** A text with a word does not strip to nothing. *)
Lemma strip_of_words (s : string) :
  Str.split s <> [] -> Str.is_empty (Str.strip s) = false.
Proof.
  intros H. destruct (Str.is_empty (Str.strip s)) eqn:E; [|reflexivity].
  apply is_empty_true, strip_empty_iff, split_nil_iff in E. contradiction.
Qed.

(** ** Sentences *)

Lemma split_on_not_nil (sep : ascii) (s : string) : Str.split_on sep s <> [].
Proof.
  destruct s as [|c s]; simpl; [discriminate|].
  destruct (Ascii.eqb c sep); [discriminate|].
  destruct (Str.split_on sep s); discriminate.
Qed.

(** Without the separator the text is one piece. *)
Lemma split_on_absent (sep : ascii) (s : string) :
  has_char sep s = false -> Str.split_on sep s = [s].
Proof.
  induction s as [|c s IH]; intros H; [reflexivity|].
  cbn [has_char] in H. apply orb_false_iff in H as [Hc Hs].
  cbn [Str.split_on]. rewrite Ascii.eqb_sym, Hc. now rewrite (IH Hs).
Qed.

Lemma has_char_contains (c : ascii) (s : string) :
  Str.contains (String c "") s = has_char c s.
Proof.
  induction s as [|d s IH]; [reflexivity|].
  rewrite contains_unfold, IH. cbn [Str.startswith has_char].
  destruct s; now rewrite andb_true_r.
Qed.

(** ** The reading level *)

Lemma reading_level_no_words (text : string) :
  Str.split text = [] -> _estimate_reading_level text = Return "Unknown".
Proof.
  intros H. unfold _estimate_reading_level. rewrite H.
  cbn [is_nil]. now rewrite orb_true_r.
Qed.

(** With a word and a sentence that is not blank, the heuristic returns one
    of its three grades. *)
Lemma reading_level_graded (text : string) :
  Str.split text <> [] ->
  filter (fun s => negb (Str.is_empty (Str.strip s)))
    (Str.split_on "." text) <> [] ->
  exists g, In g grades /\ _estimate_reading_level text = Return g.
Proof.
  intros Hw Hs. unfold _estimate_reading_level.
  destruct (Str.split_on "." text) as [|s0 ss] eqn:Es;
    [now apply split_on_not_nil in Es|].
  destruct (Str.split text) as [|w ws] eqn:Ew; [congruence|].
  cbn [is_nil orb].
  destruct (filter _ (s0 :: ss)) as [|f fs]; [congruence|].
  cbn [List.length len_div res_bind].
  unfold grades.
  match goal with
  | |- context [if ?a || ?b then _ else if ?c || ?d then _ else _] =>
      destruct (a || b); [eexists; split; [|reflexivity]; simpl; tauto|];
      destruct (c || d); eexists; (split; [|reflexivity]); simpl; tauto
  end.
Qed.

Lemma reading_level_one_sentence (text : string) :
  Str.contains "." text = false -> Str.split text <> [] ->
  exists g, In g grades /\ _estimate_reading_level text = Return g.
Proof.
  intros Hp Hw. apply reading_level_graded; [exact Hw|].
  rewrite has_char_contains in Hp. rewrite (split_on_absent _ _ Hp).
  cbn [filter]. rewrite (strip_of_words _ Hw). discriminate.
Qed.

(** The estimate is defined unless the text has a word and all its
    sentences are blank; that is where the division has no divisor. *)
Lemma reading_level_defined_iff (text : string) :
  (exists level, _estimate_reading_level text = Return level)
  <-> (Str.split text = []
       \/ filter (fun s => negb (Str.is_empty (Str.strip s)))
            (Str.split_on "." text) <> []).
Proof.
  split.
  - intros [level H].
    destruct (Str.split text) as [|w ws] eqn:Ew; [now left|right].
    intros Hf. unfold _estimate_reading_level in H.
    rewrite Ew, Hf in H.
    destruct (Str.split_on "." text) eqn:Es;
      [now apply split_on_not_nil in Es|].
    discriminate.
  - intros [H|H].
    + eexists. now apply reading_level_no_words.
    + destruct (Str.split text) as [|w ws] eqn:Ew.
      * eexists. now apply reading_level_no_words.
      * destruct (reading_level_graded text) as [g [_ Hg]];
          [congruence | exact H | now exists g].
Qed.

End MetricsFacts.

(* ====================================================================== *)
(** * Facts about the schemas *)
(* ====================================================================== *)

Module ModelsFacts.
Import Models Validator Spec.

Lemma dict_get_set_same (k : string) (v : pyval) (d : dict) :
  dict_get k (dict_set k v d) = Some v.
Proof.
  induction d as [|[k' v'] d IH]; simpl.
  - now rewrite String.eqb_refl.
  - destruct (String.eqb k k') eqn:E; simpl.
    + now rewrite String.eqb_refl.
    + now rewrite E.
Qed.

Lemma dict_get_set_other (k k' : string) (v : pyval) (d : dict) :
  k <> k' -> dict_get k' (dict_set k v d) = dict_get k' d.
Proof.
  intros Hne. induction d as [|[k0 v0] d IH]; simpl.
  - apply String.eqb_neq in Hne. rewrite String.eqb_sym. now rewrite Hne.
  - destruct (String.eqb k k0) eqn:E; simpl.
    + apply String.eqb_eq in E. subst k0.
      apply String.eqb_neq in Hne. rewrite String.eqb_sym. now rewrite Hne.
    + now rewrite IH.
Qed.

Lemma member_existsb {A : Type} (value : A -> string) (members : list A)
  (s : string) :
  existsb (fun m => String.eqb (value m) s) members = false
  <-> member value members s = None.
Proof.
  induction members as [|m ms IH]; simpl; [tauto|].
  destruct (String.eqb (value m) s); simpl; [|exact IH].
  split; discriminate.
Qed.

(** Every exception is an [Exception]; a [ValidationError] is no
    [JSONDecodeError]. *)
Lemma isinstance_Exception (e : exn) : isinstance e Exception = true.
Proof. destruct e as [[] msg]; reflexivity. Qed.

(** ** What a successful validation tells about the arguments *)

Lemma choice_field_sound {A : Type} (model : string) (value : A -> string)
  (members : list A) (v : option pyval) (m : A) :
  choice_field model value members v = Return m ->
  in_values value members v = true.
Proof.
  unfold choice_field, in_values.
  destruct v as [[| | | |s| |]|]; try discriminate.
  destruct (member value members s) eqn:E; [|discriminate].
  intros _. destruct (existsb _ members) eqn:Ex; [reflexivity|].
  apply member_existsb in Ex. congruence.
Qed.

Lemma float_field_sound (model : string) (v : option pyval) (f : float) :
  float_field model 0 10 v = Return f -> score_violation v = false.
Proof.
  unfold float_field, score_violation.
  destruct v as [[| | z | g | | |]|]; try discriminate; try reflexivity.
  - destruct (float_between 0 (float_of_int z) 10); [reflexivity|discriminate].
  - destruct (float_between 0 g 10); [reflexivity|discriminate].
Qed.

Lemma issue_init_sound (d : dict) (i : ValidationIssue) :
  ValidationIssue_init d = Return i -> issue_violation (PDict d) = false.
Proof.
  unfold ValidationIssue_init, issue_violation.
  destruct (choice_field _ category_value _ _) eqn:Ec; [|discriminate].
  apply choice_field_sound in Ec. rewrite Ec. cbn [res_bind negb orb].
  repeat (match goal with
          | |- res_bind ?r _ = _ -> _ =>
              let E := fresh "E" in
              destruct r eqn:E; [cbn [res_bind] | discriminate]
          end).
  match goal with
  | H : choice_field _ severity_value _ _ = _ |- _ =>
      apply choice_field_sound in H; rewrite H
  end.
  reflexivity.
Qed.

Lemma issue_items_sound (l : list pyval) (is_ : list ValidationIssue) :
  issue_items l = Return is_ -> existsb issue_violation l = false.
Proof.
  revert is_; induction l as [|v l IH]; intros is_ H; [reflexivity|].
  cbn [existsb]. destruct v; try discriminate.
  cbn [issue_items] in H.
  destruct (ValidationIssue_init d) eqn:Ei; [|discriminate].
  cbn [res_bind] in H.
  destruct (issue_items l) eqn:El; [|discriminate].
  rewrite (issue_init_sound _ _ Ei), (IH _ eq_refl). reflexivity.
Qed.

(** The fields of a result come from the arguments of the same name. *)
Lemma response_init_fields (kw : dict) (r : ValidationResponse) :
  ValidationResponse_init kw = Return r ->
  choice_field "ValidationResponse" status_value statuses
    (dict_get "status" kw) = Return (status r)
  /\ float_field "ValidationResponse" 0 10 (dict_get "compliance_score" kw)
     = Return (compliance_score r)
  /\ issues_field (dict_get "issues" kw) = Return (issues r)
  /\ str_field "ValidationResponse" (dict_get "suggestions" kw)
     = Return (suggestions r)
  /\ int_field "ValidationResponse" (dict_get "word_count" kw)
     = Return (word_count r)
  /\ optional_str_field "ValidationResponse" (dict_get "reading_level" kw)
     = Return (reading_level r).
Proof.
  unfold ValidationResponse_init.
  repeat (match goal with
          | |- res_bind ?x _ = _ -> _ =>
              destruct x; [cbn [res_bind] | discriminate]
          end).
  intros H. injection H as <-. cbn. repeat split; reflexivity.
Qed.

Lemma response_init_sound (kw : dict) (r : ValidationResponse) :
  ValidationResponse_init kw = Return r -> shape_violation (PDict kw) = false.
Proof.
  intros H. apply response_init_fields in H as (Hs & Hf & Hi & _).
  unfold shape_violation.
  rewrite (choice_field_sound _ _ _ _ _ Hs), (float_field_sound _ _ _ Hf).
  cbn [negb orb]. unfold issues_field in Hi.
  destruct (dict_get "issues" kw) as [[| | | | |l|]|]; try reflexivity.
  now apply issue_items_sound in Hi.
Qed.

(** ** Validation raises nothing but a [ValidationError] *)

Lemma issue_init_raises (d : dict) (e : exn) :
  ValidationIssue_init d = Raise e -> exn_type e = ValidationError.
Proof.
  unfold ValidationIssue_init, choice_field, str_field, invalid.
  repeat (match goal with
          | |- context [match ?x with _ => _ end] => destruct x
          end; cbn [res_bind]; try discriminate;
          try (intros H; injection H as <-; reflexivity)).
Qed.

Lemma issue_items_raises (l : list pyval) (e : exn) :
  issue_items l = Raise e -> exn_type e = ValidationError.
Proof.
  induction l as [|v l IH]; [discriminate|].
  destruct v; cbn [issue_items];
    try (intros H; injection H as <-; reflexivity).
  destruct (ValidationIssue_init d) eqn:Ei; cbn [res_bind].
  - destruct (issue_items l); cbn [res_bind]; [discriminate|].
    intros H; injection H as <-. now apply IH.
  - intros H; injection H as <-. now apply issue_init_raises in Ei.
Qed.

Lemma response_init_raises (kw : dict) (e : exn) :
  ValidationResponse_init kw = Raise e -> exn_type e = ValidationError.
Proof.
  unfold ValidationResponse_init.
  destruct (choice_field _ status_value _ _) eqn:E1; cbn [res_bind].
  2:{ unfold choice_field, invalid in E1.
      repeat (match type of E1 with
              | context [match ?x with _ => _ end] => destruct x
              end; try discriminate).
      all: intros H; injection H as <-; injection E1 as <-; reflexivity. }
  destruct (float_field _ _ _ _) eqn:E2; cbn [res_bind].
  2:{ unfold float_field, invalid in E2.
      repeat (match type of E2 with
              | context [match ?x with _ => _ end] => destruct x
              | context [if ?x then _ else _] => destruct x
              end; try discriminate).
      all: intros H; injection H as <-; injection E2 as <-; reflexivity. }
  destruct (issues_field _) eqn:E3; cbn [res_bind].
  2:{ intros H; injection H as <-. unfold issues_field in E3.
      destruct (dict_get "issues" kw) as [[| | | | |l|]|];
        try discriminate; try (injection E3 as <-; reflexivity).
      now apply issue_items_raises in E3. }
  unfold str_field, int_field, optional_str_field, invalid.
  repeat (match goal with
          | |- context [match ?x with _ => _ end] => destruct x
          end; cbn [res_bind]; try discriminate;
          try (intros H; injection H as <-; reflexivity)).
Qed.

(** An ill-shaped payload is rejected, whatever the other arguments. *)
Lemma response_init_rejects (kw : dict) :
  shape_violation (PDict kw) = true ->
  exists e, ValidationResponse_init kw = Raise e
            /\ exn_type e = ValidationError.
Proof.
  intros H. destruct (ValidationResponse_init kw) as [r|e] eqn:E.
  - apply response_init_sound in E. congruence.
  - exists e. split; [reflexivity|]. now apply response_init_raises in E.
Qed.

(** ** A well-formed payload validates to what it states *)

Lemma member_category (c : ValidationCategory) :
  member category_value categories (category_value c) = Some c.
Proof. destruct c; reflexivity. Qed.

Lemma member_severity (s : Severity) :
  member severity_value severities (severity_value s) = Some s.
Proof. destruct s; reflexivity. Qed.

Lemma member_status (s : Status) :
  member status_value statuses (status_value s) = Some s.
Proof. destruct s; reflexivity. Qed.

Lemma issue_init_encode (i : ValidationIssue) :
  match encode_issue i with
  | PDict d => ValidationIssue_init d = Return i
  | _ => False
  end.
Proof.
  destruct i as [c r t i f s]. unfold encode_issue, ValidationIssue_init.
  cbn -[member category_value severity_value].
  now rewrite member_category, member_severity.
Qed.

Lemma issue_items_encode (is_ : list ValidationIssue) :
  issue_items (map encode_issue is_) = Return is_.
Proof.
  induction is_ as [|i is_ IH]; [reflexivity|].
  pose proof (issue_init_encode i) as Hi.
  cbn [map]. destruct (encode_issue i); try contradiction.
  cbn [issue_items]. rewrite Hi, IH. reflexivity.
Qed.

End ModelsFacts.

(* ====================================================================== *)
(** * Facts about [validate_listing] *)
(* ====================================================================== *)

Module PipelineFacts.
Import Models Validator Spec StrFacts MetricsFacts ModelsFacts.

(** One run: the entry is recorded, one request is sent, and the answer is
    interpreted; a failure of the service goes to the outer handler. *)
Lemma validate_listing_run (self : MarketplaceValidator) (listing : string)
  (w : World) :
  validate_listing self listing w
  = (match service w (completion_request (prompt_for self listing)) with
     | Return raw => interpret listing (cleaned raw)
     | Raise e => system_error_response listing e
     end,
     mk_world (service w)
       (Completion (completion_request (prompt_for self listing))
        :: Validating listing :: trace w)).
Proof.
  unfold validate_listing, bind, emit, try_except, chat_completions_create,
    lift, interpret, cleaned, prompt_for.
  cbn [service trace].
  destruct (service w _) as [raw|e]; [|now rewrite isinstance_Exception].
  destruct (parse_response listing _) as [r|e]; [reflexivity|].
  destruct (isinstance e JSONDecodeError).
  - destruct (_create_fallback_response listing _) as [r|e'];
      [reflexivity | now rewrite isinstance_Exception].
  - now rewrite isinstance_Exception.
Qed.

Lemma parse_response_not_object (listing text : string) (v : pyval) :
  Json.loads text = Return v ->
  (forall d, v <> PDict d) ->
  exists e, parse_response listing text = Raise e
            /\ exn_type e = AttributeError.
Proof.
  intros H Hv. unfold parse_response. rewrite H. cbn [res_bind].
  destruct v; try (eexists; split; reflexivity).
  now destruct (Hv d).
Qed.

Lemma parse_response_object (listing text level : string) (d : dict) :
  Json.loads text = Return (PDict d) ->
  _estimate_reading_level listing = Return level ->
  parse_response listing text
  = ValidationResponse_init (with_metrics listing level d).
Proof.
  intros H Hl. unfold parse_response, with_metrics, needs_level, with_count.
  rewrite H, Hl. cbn [res_bind keys].
  match goal with |- context [if ?c then _ else _] => destruct c end;
    reflexivity.
Qed.

(** With a true reading level in the payload the estimate is not asked. *)
Lemma parse_response_leveled (listing text : string) (d : dict) :
  Json.loads text = Return (PDict d) ->
  needs_level (with_count listing d) = false ->
  parse_response listing text
  = ValidationResponse_init (with_count listing d).
Proof.
  intros H Hn. unfold parse_response. rewrite H. cbn [res_bind keys].
  unfold needs_level, with_count in Hn. now rewrite Hn.
Qed.

Lemma with_metrics_word_count (listing level : string) (d : dict) :
  dict_get "word_count" (with_metrics listing level d)
  = Some (PInt (Z.of_nat (_calculate_word_count listing))).
Proof.
  unfold with_metrics, with_count.
  destruct (needs_level _).
  - rewrite dict_get_set_other by discriminate. apply dict_get_set_same.
  - apply dict_get_set_same.
Qed.

Lemma with_metrics_other (listing level k : string) (d : dict) :
  k <> "word_count" -> k <> "reading_level" ->
  dict_get k (with_metrics listing level d) = dict_get k d.
Proof.
  intros H1 H2. unfold with_metrics, with_count.
  destruct (needs_level _);
    repeat rewrite dict_get_set_other by congruence; reflexivity.
Qed.

Lemma with_metrics_violation (listing level : string) (d : dict) :
  shape_violation (PDict (with_metrics listing level d))
  = shape_violation (PDict d).
Proof.
  unfold shape_violation.
  now rewrite !with_metrics_other by discriminate.
Qed.

(** The word count of every result that [parse_response] returns. *)
Lemma parse_response_word_count (listing text : string)
  (r : ValidationResponse) :
  parse_response listing text = Return r ->
  word_count r = Z.of_nat (_calculate_word_count listing).
Proof.
  unfold parse_response.
  destruct (Json.loads text) as [v|]; [cbn [res_bind]|discriminate].
  destruct (keys v) as [d|]; [cbn [res_bind]|discriminate].
  fold (with_count listing d).
  assert (Hk : forall kw,
             dict_get "word_count" kw
             = Some (PInt (Z.of_nat (_calculate_word_count listing))) ->
             ValidationResponse_init kw = Return r ->
             word_count r = Z.of_nat (_calculate_word_count listing)).
  { intros kw Hg Hr. apply response_init_fields in Hr as (_&_&_&_&Hw&_).
    rewrite Hg in Hw. cbn in Hw. congruence. }
  destruct (_ || _).
  - destruct (_estimate_reading_level listing) as [level|];
      [cbn [res_bind]|discriminate].
    apply Hk. rewrite dict_get_set_other by discriminate.
    apply dict_get_set_same.
  - cbn [res_bind]. apply Hk, dict_get_set_same.
Qed.

Lemma fallback_response_inv (listing text : string) (r : ValidationResponse) :
  _create_fallback_response listing text = Return r ->
  exists level,
    _estimate_reading_level listing = Return level
    /\ r = {| status := non_compliant;
              compliance_score := 5;
              issues := [response_format_issue];
              suggestions :=
                "Validation completed but response format was unexpected: "
                ++ Str.take 200 text ++ "...";
              word_count := Z.of_nat (_calculate_word_count listing);
              reading_level := Some level |}.
Proof.
  unfold _create_fallback_response.
  destruct (_estimate_reading_level listing) as [level|]; [|discriminate].
  cbn [res_bind]. intros H. injection H as <-. now exists level.
Qed.

Lemma system_error_response_inv (listing : string) (e : exn)
  (r : ValidationResponse) :
  system_error_response listing e = Return r ->
  exists level,
    _estimate_reading_level listing = Return level
    /\ r = {| status := non_compliant;
              compliance_score := 0;
              issues := [system_error_issue (exn_str e)];
              suggestions :=
                "System error occurred during validation. Please try again.";
              word_count := Z.of_nat (_calculate_word_count listing);
              reading_level := Some level |}.
Proof.
  unfold system_error_response.
  destruct (_estimate_reading_level listing) as [level|]; [|discriminate].
  cbn [res_bind]. intros H. injection H as <-. now exists level.
Qed.

Lemma interpret_word_count (listing text : string) (r : ValidationResponse) :
  interpret listing text = Return r ->
  word_count r = Z.of_nat (_calculate_word_count listing).
Proof.
  unfold interpret.
  destruct (parse_response listing text) as [r'|e] eqn:Ep.
  - intros H; injection H as <-. now apply parse_response_word_count in Ep.
  - destruct (isinstance e JSONDecodeError).
    + destruct (_create_fallback_response listing text) as [r'|e'] eqn:Ef.
      * intros H; injection H as <-.
        apply fallback_response_inv in Ef as [level [_ ->]]. reflexivity.
      * intros H. apply system_error_response_inv in H as [level [_ ->]].
        reflexivity.
    + intros H. apply system_error_response_inv in H as [level [_ ->]].
      reflexivity.
Qed.

(** When the reading level of the listing can be estimated, every run
    returns a result, whatever the service does. *)
Lemma interpret_returns (listing text level : string) :
  _estimate_reading_level listing = Return level ->
  exists r, interpret listing text = Return r.
Proof.
  intros Hl. unfold interpret, _create_fallback_response,
    system_error_response.
  rewrite Hl. cbn [res_bind].
  destruct (parse_response listing text) as [r|e]; [now exists r|].
  destruct (isinstance e JSONDecodeError); eexists; reflexivity.
Qed.

Lemma validate_listing_returns (self : MarketplaceValidator)
  (listing level : string) (w : World) :
  _estimate_reading_level listing = Return level ->
  exists r, fst (validate_listing self listing w) = Return r.
Proof.
  intros Hl. rewrite validate_listing_run. cbn [fst].
  destruct (service w _) as [raw|e].
  - now apply (interpret_returns _ _ level).
  - unfold system_error_response. rewrite Hl. eexists; reflexivity.
Qed.

(** A run returns a result for every behaviour of the service exactly when
    the reading level of the listing can be estimated. *)
Lemma validate_listing_total_iff (self : MarketplaceValidator)
  (listing : string) :
  (forall w, exists r, fst (validate_listing self listing w) = Return r)
  <-> (exists level, _estimate_reading_level listing = Return level).
Proof.
  split.
  - intros H.
    destruct (H (failing (mk_exn APIError "connection error"))) as [r Hr].
    rewrite validate_listing_run in Hr. cbn [fst failing service] in Hr.
    apply system_error_response_inv in Hr as [level [Hl _]].
    now exists level.
  - intros [level Hl] w. now apply (validate_listing_returns _ _ level).
Qed.

(** The handler of the route enters the core when a validator is there. *)
Lemma handler_enters_core (v : MarketplaceValidator)
  (request : ValidationRequest) (w : World) :
  trace (snd (Main.validate_listing (Some v) request w))
  = Completion (completion_request (prompt_for v (listing request)))
    :: Validating (listing request) :: trace w.
Proof.
  unfold Main.validate_listing. rewrite validate_listing_run.
  destruct (match service w _ with Return _ => _ | Raise _ => _ end);
    reflexivity.
Qed.

(** When it cannot, both handlers raise in their turn. *)
Lemma handlers_raise (listing text : string) (e0 e : exn) :
  _estimate_reading_level listing = Raise e ->
  _create_fallback_response listing text = Raise e
  /\ system_error_response listing e0 = Raise e.
Proof.
  intros H. unfold _create_fallback_response, system_error_response.
  now rewrite H.
Qed.

End PipelineFacts.

(* ====================================================================== *)
(** * Facts about whole runs *)
(* ====================================================================== *)

Module RunFacts.
Import Models Validator Spec StrFacts ReplaceFacts MetricsFacts ModelsFacts
  PipelineFacts.

(** ** Round trip of a well-formed payload *)

Lemma response_init_encode (listing level : string) (r0 : ValidationResponse)
  (n : Z) :
  float_between 0 (compliance_score r0) 10 = true ->
  ValidationResponse_init (with_metrics listing level (encode_response r0 n))
  = Return {| status := status r0;
              compliance_score := compliance_score r0;
              issues := issues r0;
              suggestions := suggestions r0;
              word_count := Z.of_nat (_calculate_word_count listing);
              reading_level := Some (kept_level r0 level) |}.
Proof.
  intros Hs. destruct r0 as [st sc is_ sg wc rl]. cbn [compliance_score] in Hs.
  unfold ValidationResponse_init, with_metrics, with_count, encode_response,
    kept_level.
  destruct rl as [[|c l]|];
    cbn -[member status_value issue_items float_between _calculate_word_count];
    rewrite member_status, Hs, issue_items_encode; reflexivity.
Qed.

Lemma round_trip (listing raw level : string) (r0 : ValidationResponse)
  (n : Z) :
  Json.loads (cleaned raw) = Return (PDict (encode_response r0 n)) ->
  float_between 0 (compliance_score r0) 10 = true ->
  _estimate_reading_level listing = Return level ->
  interpret listing (cleaned raw)
  = Return {| status := status r0;
              compliance_score := compliance_score r0;
              issues := issues r0;
              suggestions := suggestions r0;
              word_count := Z.of_nat (_calculate_word_count listing);
              reading_level := Some (kept_level r0 level) |}.
Proof.
  intros Hj Hs Hl. unfold interpret.
  rewrite (parse_response_object _ _ level _ Hj Hl).
  now rewrite response_init_encode.
Qed.

Lemma round_trip_run (self : MarketplaceValidator)
  (listing raw level : string) (w : World) (r0 : ValidationResponse) (n : Z) :
  service w (completion_request (prompt_for self listing)) = Return raw ->
  Json.loads (cleaned raw) = Return (PDict (encode_response r0 n)) ->
  float_between 0 (compliance_score r0) 10 = true ->
  _estimate_reading_level listing = Return level ->
  fst (validate_listing self listing w)
  = Return {| status := status r0;
              compliance_score := compliance_score r0;
              issues := issues r0;
              suggestions := suggestions r0;
              word_count := Z.of_nat (_calculate_word_count listing);
              reading_level := Some (kept_level r0 level) |}.
Proof.
  intros Hs Hj Hb Hl. rewrite validate_listing_run, Hs. cbn [fst].
  now apply (round_trip listing raw level r0 n).
Qed.

(** ** The composed prompt *)

Lemma replace_from_contains_new (a : ascii) (old new s : string) :
  Str.contains (String a old) s = true ->
  Str.contains new (Str.replace_from (String a old) new 0 s) = true.
Proof.
  induction s as [|c s IH]; intros H.
  - discriminate.
  - rewrite contains_unfold in H. cbn [Str.replace_from].
    destruct (Str.startswith (String a old) (String c s)).
    + rewrite contains_unfold, startswith_app. reflexivity.
    + cbn [orb] in H. rewrite contains_unfold, (IH H). apply orb_true_r.
Qed.

(** With a template that holds the placeholder, the prompt holds the
    listing. *)
Lemma prompt_contains_listing (key base listing : string) :
  Str.contains "{{ listing }}" base = true ->
  Str.contains listing
    (prompt_for (mk_validator key (base ++ structured_output_instruction))
       listing) = true.
Proof.
  intros H. unfold prompt_for, Str.replace. cbn [validation_prompt].
  apply replace_from_contains_new. now apply contains_app_l.
Qed.

(** ** Start-up without a credential *)

Lemma no_credential_no_validator (file : Res string) (key : option string) :
  str_truthy key = false -> Main.validator (mk_env key file) = Return None.
Proof.
  intros H. unfold Main.validator, __init__, str_or. cbn [str_truthy].
  cbn [OPENAI_API_KEY].
  destruct key as [[|c k]|]; try discriminate; reflexivity.
Qed.

Lemma no_validator_unavailable (request : ValidationRequest) (w : World) :
  Main.validate_listing None request w
  = (Return (Main.HTTPError 503
       "Validator service is not available. Please check API configuration."),
     w).
Proof. reflexivity. Qed.

(** ** The cleaned text *)

Lemma lstrip_all_space_empty (s : string) :
  all_space (Str.lstrip s) = true -> Str.lstrip s = "".
Proof.
  induction s as [|c s IH]; [reflexivity|]. cbn [Str.lstrip].
  destruct (Str.isspace c) eqn:Hc; [exact IH|].
  cbn [all_space]. now rewrite Hc.
Qed.

Lemma cleaned_blank (raw : string) :
  all_space (cleaned raw) = true -> cleaned raw = "".
Proof.
  unfold cleaned, clean_response, Str.strip.
  repeat (match goal with
          | |- context [if ?c then _ else _] => destruct c
          end); apply lstrip_all_space_empty.
Qed.

End RunFacts.

(* ====================================================================== *)
(** * The properties of the specification *)
(* ====================================================================== *)

Import Models Validator Spec Samples.
Import StrFacts ReplaceFacts MetricsFacts ModelsFacts PipelineFacts RunFacts.

(** ** Text metrics *)

(** C7.  The text metrics are not total: on the listing of ten periods the
    word count is 1, and [_estimate_reading_level] raises a
    [ZeroDivisionError], because the text has a word while every piece
    between two periods is empty, so that the average sentence length
    divides by zero. *)
Theorem reading_level_divides_by_zero :
  _calculate_word_count dots = 1
  /\ Str.split_on "." dots = repeat "" 11
  /\ _estimate_reading_level dots
     = Raise (mk_exn ZeroDivisionError "division by zero").
Proof. repeat split. Qed.

(** C6, as stated, fails: "hello world" has no period and is graded. *)
Lemma unknown_level_counterexample : ~ unknown_level_claim "hello world".
Proof.
  intros H. specialize (H (or_introl eq_refl)). vm_compute in H. discriminate.
Qed.

(** C6, amended.  For a text with no period or no word the reading level
    is defined, and it is "Unknown" exactly when the text has no word: a
    text with words and no period counts as one sentence and gets one of the
    three grades. *)
Theorem unknown_level_iff_no_words (text : string) :
  Str.contains "." text = false \/ Str.split text = [] ->
  exists level,
    _estimate_reading_level text = Return level
    /\ (level = "Unknown" <-> Str.split text = [])
    /\ (Str.split text <> [] -> In level grades).
Proof.
  intros H. destruct (Str.split text) as [|w ws] eqn:Ew.
  - exists "Unknown". rewrite (reading_level_no_words _ Ew).
    repeat split; congruence.
  - destruct H as [H|H]; [|discriminate].
    destruct (reading_level_one_sentence text H) as [g [Hg Hr]];
      [congruence|].
    exists g. split; [exact Hr|]. split; [|now intros _].
    split; [|discriminate]. intros ->. simpl in Hg.
    repeat (destruct Hg as [Hg|Hg]; [discriminate|]). contradiction.
Qed.

Lemma unknown_level_iff_no_words_witness :
  exists level,
    _estimate_reading_level "hello world" = Return level
    /\ (level = "Unknown" <-> Str.split "hello world" = [])
    /\ (Str.split "hello world" <> [] -> In level grades).
Proof. apply (unknown_level_iff_no_words "hello world"). left. reflexivity. Defined.

(** ** The word count of a result *)

(** C2.  Whatever the service answers, a result that [validate_listing]
    returns carries the number of white-space-delimited tokens of the
    listing as its word count. *)
Theorem word_count_recomputed (self : MarketplaceValidator)
  (listing : string) (w : World) (r : ValidationResponse) :
  fst (validate_listing self listing w) = Return r ->
  word_count r = Z.of_nat (token_count listing).
Proof.
  rewrite validate_listing_run. cbn [fst].
  rewrite <- word_count_is_token_count.
  destruct (service w _) as [raw|e]; intros H.
  - now apply interpret_word_count in H.
  - apply system_error_response_inv in H as [level [_ ->]]. reflexivity.
Qed.

Lemma word_count_recomputed_witness :
  exists r,
    fst (validate_listing ready promo (answering (fenced "json" verdict)))
    = Return r
    /\ word_count r = 12%Z.
Proof.
  eexists. split; [vm_compute; reflexivity|].
  apply (word_count_recomputed ready promo
           (answering (fenced "json" verdict))).
  vm_compute. reflexivity.
Defined.

(** ** Output that is not JSON *)

(** C3, as stated, fails: for a fenced answer that is not JSON the
    suggestions quote the text without its fence, not the first characters
    of the raw answer. *)
Lemma malformed_output_counterexample :
  ~ malformed_output_claim ready greeting (fenced "json" prose).
Proof.
  intros H. destruct H as [r [level (Hr & _ & _ & _ & Hc & _)]].
  - eexists. vm_compute. reflexivity.
  - vm_compute in Hr. injection Hr as <-. vm_compute in Hc. discriminate.
Qed.

(** For any decoder, one run is one request whose answer is cleaned and
    decoded; the fallback response answers a [JSONDecodeError], the
    system-error response any other exception. *)
Lemma validate_listing_any_run (loads : string -> Res pyval)
  (self : MarketplaceValidator) (listing : string) (w : World) :
  AnyDecoder.validate_listing loads self listing w
  = (match service w (completion_request (prompt_for self listing)) with
     | Return raw =>
         match AnyDecoder.parse_response loads listing (cleaned raw) with
         | Return r => Return r
         | Raise e =>
             if isinstance e JSONDecodeError then
               match _create_fallback_response listing (cleaned raw) with
               | Return r => Return r
               | Raise e' => system_error_response listing e'
               end
             else system_error_response listing e
         end
     | Raise e => system_error_response listing e
     end,
     mk_world (service w)
       (Completion (completion_request (prompt_for self listing))
        :: Validating listing :: trace w)).
Proof.
  unfold AnyDecoder.validate_listing, bind, emit, try_except,
    chat_completions_create, lift, cleaned, prompt_for.
  cbn [service trace].
  destruct (service w _) as [raw|e]; [|now rewrite isinstance_Exception].
  destruct (AnyDecoder.parse_response loads listing _) as [r|e];
    [reflexivity|].
  destruct (isinstance e JSONDecodeError).
  - destruct (_create_fallback_response listing _) as [r|e'];
      [reflexivity | now rewrite isinstance_Exception].
  - now rewrite isinstance_Exception.
Qed.

(** With the decoder of the model this is [validate_listing]. *)
Lemma validate_listing_any_json (self : MarketplaceValidator)
  (listing : string) :
  AnyDecoder.validate_listing Json.loads self listing
  = validate_listing self listing.
Proof. reflexivity. Qed.

(** A failure of the decoder that is no [JSONDecodeError] (the recursion
    limit, an integer with too many digits) is answered by the system-error
    response, not by the fallback response. *)
Lemma other_decoder_error (loads : string -> Res pyval)
  (self : MarketplaceValidator) (listing raw level : string) (w : World)
  (e : exn) :
  service w (completion_request (prompt_for self listing)) = Return raw ->
  _estimate_reading_level listing = Return level ->
  loads (cleaned raw) = Raise e ->
  isinstance e JSONDecodeError = false ->
  fst (AnyDecoder.validate_listing loads self listing w)
  = Return {| status := non_compliant;
              compliance_score := 0;
              issues := [system_error_issue (exn_str e)];
              suggestions :=
                "System error occurred during validation. Please try again.";
              word_count := Z.of_nat (_calculate_word_count listing);
              reading_level := Some level |}.
Proof.
  intros Hs Hl Hj Hi. rewrite validate_listing_any_run, Hs. cbn [fst].
  unfold AnyDecoder.parse_response. rewrite Hj. cbn [res_bind]. rewrite Hi.
  unfold system_error_response. now rewrite Hl.
Qed.

(** C3, amended.  Whatever the decoder is: when the reading level of the
    listing can be estimated and the decoder raises a [JSONDecodeError] on
    the answer, trimmed and without its fence, the result is the fallback
    response: not compliant, score 5.0, the one "Response Format" issue, the
    first 200 characters of the trimmed and unfenced answer inside the
    suggestions, and the metrics of the listing.  A trimmed and unfenced
    answer made of white space is the empty text. *)
Theorem malformed_output_fallback (loads : string -> Res pyval)
  (self : MarketplaceValidator) (listing raw level : string) (w : World)
  (e : exn) :
  service w (completion_request (prompt_for self listing)) = Return raw ->
  _estimate_reading_level listing = Return level ->
  loads (cleaned raw) = Raise e ->
  isinstance e JSONDecodeError = true ->
  (exists r,
     fst (AnyDecoder.validate_listing loads self listing w) = Return r
     /\ status r = non_compliant
     /\ compliance_score r = 5%float
     /\ issues r = [response_format_issue]
     /\ suggestions r
        = "Validation completed but response format was unexpected: "
          ++ Str.take 200 (cleaned raw) ++ "..."
     /\ Str.contains (Str.take 200 (cleaned raw)) (suggestions r) = true
     /\ word_count r = Z.of_nat (_calculate_word_count listing)
     /\ reading_level r = Some level)
  /\ (all_space (cleaned raw) = true -> cleaned raw = "").
Proof.
  intros Hs Hl Hj Hi. split; [|apply cleaned_blank].
  rewrite validate_listing_any_run, Hs. cbn [fst].
  unfold AnyDecoder.parse_response. rewrite Hj. cbn [res_bind]. rewrite Hi.
  unfold _create_fallback_response. rewrite Hl. cbn [res_bind].
  eexists. split; [reflexivity|].
  cbn [status compliance_score issues suggestions word_count reading_level].
  repeat split. apply contains_middle.
Qed.

Lemma malformed_output_fallback_witness :
  (exists r,
     fst (validate_listing ready greeting (answering (fenced "json" prose)))
     = Return r
     /\ status r = non_compliant
     /\ compliance_score r = 5%float
     /\ issues r = [response_format_issue]
     /\ suggestions r
        = "Validation completed but response format was unexpected: "
          ++ Str.take 200 (cleaned (fenced "json" prose)) ++ "..."
     /\ Str.contains (Str.take 200 (cleaned (fenced "json" prose)))
          (suggestions r) = true
     /\ word_count r = Z.of_nat (_calculate_word_count greeting)
     /\ reading_level r = Some "Grade 10-12")
  /\ (all_space (cleaned (fenced "json" prose)) = true ->
      cleaned (fenced "json" prose) = "").
Proof.
  apply (malformed_output_fallback Json.loads ready greeting
           (fenced "json" prose) "Grade 10-12"
           (answering (fenced "json" prose)) Json.decode_error).
  - reflexivity.
  - vm_compute. reflexivity.
  - vm_compute. reflexivity.
  - reflexivity.
Defined.

(** ** Output that is JSON of the wrong shape *)

(** C4, as stated, fails: an answer whose status is outside the two values
    gives the system-error response, with score 0.0. *)
Lemma ill_shaped_counterexample : ~ ill_shaped_claim ready greeting odd_status.
Proof.
  intros H. destruct (H (PDict [("status", PStr "maybe");
                               ("compliance_score", PInt 7);
                               ("suggestions", PStr "None.")]))
    as [r [i (Hr & Hc & _)]].
  - vm_compute. reflexivity.
  - reflexivity.
  - vm_compute in Hr. injection Hr as <-. vm_compute in Hc. discriminate.
Qed.

(** C4, amended.  When the reading level of the listing can be estimated
    and the answer decodes to a value that breaks a shape rule (it is no
    object; its status is outside the two values; its score is a number
    outside [0, 10], or null, an array or an object; one of its issues has a
    category or a severity outside the closed sets), the exception is a
    [ValidationError] or an [AttributeError], not a [JSONDecodeError], and
    the result is the system-error response: not compliant, score 0.0, the
    one "System Error" issue that quotes the exception, and the metrics of
    the listing. *)
Theorem ill_shaped_system_error (self : MarketplaceValidator)
  (listing raw level : string) (w : World) (v : pyval) :
  service w (completion_request (prompt_for self listing)) = Return raw ->
  _estimate_reading_level listing = Return level ->
  Json.loads (cleaned raw) = Return v ->
  shape_violation v = true ->
  exists e,
    (exn_type e = ValidationError \/ exn_type e = AttributeError)
    /\ fst (validate_listing self listing w)
       = Return {| status := non_compliant;
                   compliance_score := 0;
                   issues := [system_error_issue (exn_str e)];
                   suggestions :=
                     "System error occurred during validation. Please try again.";
                   word_count := Z.of_nat (_calculate_word_count listing);
                   reading_level := Some level |}.
Proof.
  intros Hs Hl Hj Hv.
  assert (Hp : exists e,
             parse_response listing (cleaned raw) = Raise e
             /\ (exn_type e = ValidationError \/ exn_type e = AttributeError)).
  { destruct v as [| | | | | |d].
    1-6: (destruct (parse_response_not_object listing _ _ Hj) as [e [He Ht]];
          [intros d; discriminate | exists e; split; [exact He | now right]]).
    rewrite (parse_response_object _ _ level _ Hj Hl).
    destruct (response_init_rejects (with_metrics listing level d))
      as [e [He Ht]].
    - now rewrite with_metrics_violation.
    - exists e. split; [exact He | now left]. }
  destruct Hp as [e [He Ht]]. exists e. split; [exact Ht|].
  rewrite validate_listing_run, Hs. cbn [fst]. unfold interpret. rewrite He.
  assert (Hi : isinstance e JSONDecodeError = false).
  { unfold isinstance. destruct Ht as [-> | ->]; reflexivity. }
  rewrite Hi. unfold system_error_response. rewrite Hl. reflexivity.
Qed.

Lemma ill_shaped_system_error_witness :
  exists e,
    (exn_type e = ValidationError \/ exn_type e = AttributeError)
    /\ fst (validate_listing ready greeting (answering odd_status))
       = Return {| status := non_compliant;
                   compliance_score := 0;
                   issues := [system_error_issue (exn_str e)];
                   suggestions :=
                     "System error occurred during validation. Please try again.";
                   word_count := Z.of_nat (_calculate_word_count greeting);
                   reading_level := Some "Grade 10-12" |}.
Proof.
  apply (ill_shaped_system_error ready greeting odd_status "Grade 10-12"
           (answering odd_status)
           (PDict [("status", PStr "maybe"); ("compliance_score", PInt 7);
                   ("suggestions", PStr "None.")])).
  - reflexivity.
  - vm_compute. reflexivity.
  - vm_compute. reflexivity.
  - reflexivity.
Defined.

(** ** Fences *)

(** C8, as stated, fails: the three backquotes inside the suggestions of a
    fenced payload are removed together with the fence. *)
Lemma fence_counterexample : ~ fence_claim ready greeting "json" fence_advice.
Proof. unfold fence_claim. vm_compute. discriminate. Qed.

(** C8, amended.  For a payload that does not contain three backquotes in a
    row, the payload between a "```json" line or a "```" line and a closing
    "```" line yields the same result as the payload alone. *)
Theorem fence_transparent (self : MarketplaceValidator)
  (listing tag payload : string) :
  tag = "json" \/ tag = "" ->
  Str.contains "```" payload = false ->
  fence_claim self listing tag payload.
Proof.
  intros Htag H. unfold fence_claim.
  rewrite !validate_listing_run. unfold answering. cbn [fst service].
  now rewrite cleaned_fenced.
Qed.

Lemma fence_transparent_witness : fence_claim ready promo "json" verdict.
Proof.
  apply (fence_transparent ready promo "json" verdict).
  - left. reflexivity.
  - vm_compute. reflexivity.
Defined.

(** ** The request boundary *)

(** C10.  A body whose listing is a string is accepted by the request
    schema exactly when the listing has 10 to 5000 characters.  An accepted
    request is handed to the handler; a rejected one is answered with status
    422 and leaves the world as it was: the core validator is not entered
    and no request is sent. *)
Theorem request_length_bounds
  (validator : option MarketplaceValidator) (request_body : dict)
  (s : string) (w : World) :
  dict_get "listing" request_body = Some (PStr s) ->
  ((exists request, ValidationRequest_init request_body = Return request)
   <-> (10 <= String.length s <= 5000)%nat)
  /\ ((10 <= String.length s <= 5000)%nat ->
      Main.post_validate validator request_body w
      = Main.validate_listing validator (mk_request s) w)
  /\ (~ (10 <= String.length s <= 5000)%nat ->
      exists detail,
        Main.post_validate validator request_body w
        = (Return (Main.HTTPError 422 detail), w)).
Proof.
  intros Hb. unfold Main.post_validate, ValidationRequest_init. rewrite Hb.
  destruct (10 <=? String.length s)%nat eqn:Hlo;
    [apply Nat.leb_le in Hlo | apply Nat.leb_gt in Hlo];
    (destruct (String.length s <=? 5000)%nat eqn:Hhi;
     [apply Nat.leb_le in Hhi | apply Nat.leb_gt in Hhi]);
    cbn [andb]; repeat split; intros;
    try lia; try reflexivity;
    try (eexists; reflexivity);
    try (match goal with H : exists _, Raise _ = Return _ |- _ =>
           destruct H; discriminate end).
Qed.

Lemma request_length_bounds_witness :
  ((exists request, ValidationRequest_init (body "too short") = Return request)
   <-> (10 <= String.length "too short" <= 5000)%nat)
  /\ ((10 <= String.length "too short" <= 5000)%nat ->
      Main.post_validate (Some ready) (body "too short") (answering verdict)
      = Main.validate_listing (Some ready) (mk_request "too short")
          (answering verdict))
  /\ (~ (10 <= String.length "too short" <= 5000)%nat ->
      exists detail,
        Main.post_validate (Some ready) (body "too short") (answering verdict)
        = (Return (Main.HTTPError 422 detail), answering verdict)).
Proof.
  apply (request_length_bounds (Some ready) (body "too short") "too short"
           (answering verdict)).
  reflexivity.
Defined.

(** ** Every call returns a result *)

(** C1.  Not every call returns a result.  For the listing of ten periods
    and a service that raises any error, the handler of [validate_listing]
    raises in its turn while it builds the system-error response, because it
    estimates the reading level of the listing; [validate_listing] ends with
    a [ZeroDivisionError], and the endpoint, whose validator is configured,
    answers with status 500: neither a result nor the unavailable signal. *)
Theorem validate_listing_raises (self : MarketplaceValidator) (e : exn) :
  ValidationRequest_init (body dots) = Return (mk_request dots)
  /\ fst (Validator.validate_listing self dots (failing e))
     = Raise (mk_exn ZeroDivisionError "division by zero")
  /\ fst (Main.post_validate (Some self) (body dots) (failing e))
     = Return (Main.HTTPError 500 "Validation failed: division by zero").
Proof.
  split; [reflexivity|].
  assert (H : fst (Validator.validate_listing self dots (failing e))
              = Raise (mk_exn ZeroDivisionError "division by zero")).
  { rewrite validate_listing_run. cbn [fst failing service].
    now apply (handlers_raise dots "" e). }
  split; [exact H|].
  unfold Main.post_validate.
  change (ValidationRequest_init (body dots)) with (Return (mk_request dots)).
  cbv iota. unfold Main.validate_listing. cbn [listing].
  destruct (validate_listing self dots (failing e)) as [[r|e'] w'];
    cbn [fst] in H; [discriminate|].
  injection H as ->. reflexivity.
Qed.

(** ** The prompt *)

(** C5.  When the template file is missing, the validator is built with the
    built-in policy alone: for every listing the prompt that is sent is the
    built-in policy as it stands, which has no placeholder; the output
    instructions are not appended to it, and the listing is not in it. *)
Theorem fallback_prompt_is_bare (listing : string) (w : World) :
  Validator.__init__ env_no_template None = Return bare
  /\ prompt_for bare listing = _get_fallback_prompt
  /\ trace (snd (validate_listing bare listing w))
     = Completion (completion_request _get_fallback_prompt)
       :: Validating listing :: trace w
  /\ Str.contains structured_output_instruction _get_fallback_prompt = false
  /\ Str.contains platinum (prompt_for bare platinum) = false.
Proof.
  assert (Hp : forall l, prompt_for bare l = _get_fallback_prompt).
  { intros l. unfold prompt_for. cbn [validation_prompt bare].
    apply replace_absent; [discriminate | vm_compute; reflexivity]. }
  split; [reflexivity|]. split; [apply Hp|].
  split; [rewrite validate_listing_run; cbn [snd trace]; now rewrite Hp|].
  split; [vm_compute; reflexivity|].
  rewrite Hp. vm_compute. reflexivity.
Qed.

(** ** Round trip *)

(** C9.  The round trip fails where the reading level cannot be estimated:
    [terse_verdict] states a result with every required field and no
    reading level, and for the listing of ten periods no result comes back;
    [validate_listing] raises a [ZeroDivisionError]. *)
Theorem round_trip_raises (self : MarketplaceValidator) :
  Json.loads (cleaned terse_verdict)
  = Return (PDict (encode_response terse_result 1))
  /\ fst (validate_listing self dots (answering terse_verdict))
     = Raise (mk_exn ZeroDivisionError "division by zero").
Proof.
  split; [vm_compute; reflexivity|].
  rewrite validate_listing_run. cbn [fst answering service].
  vm_compute. reflexivity.
Qed.

(* ====================================================================== *)
(** * Further facts *)
(* ====================================================================== *)

Module WordFacts.
Import Models Validator Spec Terms StrFacts MetricsFacts.

Lemma all_chars_app (p : ascii -> bool) (a b : string) :
  all_chars p (a ++ b) = all_chars p a && all_chars p b.
Proof.
  induction a as [|c a IH]; simpl; [reflexivity|].
  now rewrite IH, andb_assoc.
Qed.

Lemma head_is_word_app_space (a b : string) (sp : ascii) :
  Str.isspace sp = true ->
  Str.head_is_word (a ++ String sp b) = Str.head_is_word a.
Proof. intros H. destruct a; simpl; [now rewrite H | reflexivity]. Qed.

(** Splitting a text at a white-space character splits its words. *)
Lemma split_app_space (a b : string) (sp : ascii) :
  Str.isspace sp = true ->
  Str.split (a ++ String sp b) = (Str.split a ++ Str.split b)%list.
Proof.
  intros Hsp. induction a as [|c a IH].
  - simpl. now rewrite Hsp.
  - simpl append. cbn [Str.split].
    rewrite head_is_word_app_space by exact Hsp. rewrite IH.
    destruct (Str.isspace c); [reflexivity|].
    destruct (Str.head_is_word a) eqn:Hh; [|reflexivity].
    destruct (Str.split a) as [|w ws] eqn:Ea; [|reflexivity].
    exfalso. apply split_nil_iff in Ea.
    destruct a as [|d a]; [discriminate|].
    simpl in Hh, Ea. destruct (Str.isspace d); discriminate.
Qed.

Lemma split_app_all_space (a t : string) :
  all_space t = true -> Str.split (a ++ t) = Str.split a.
Proof.
  intros Ht. destruct t as [|sp t]; [now rewrite append_empty_r|].
  simpl in Ht. apply andb_true_iff in Ht as [Hsp Ht].
  rewrite split_app_space by exact Hsp.
  apply split_nil_iff in Ht. rewrite Ht. apply app_nil_r.
Qed.

Lemma split_lstrip (s : string) : Str.split (Str.lstrip s) = Str.split s.
Proof.
  induction s as [|c s IH]; [reflexivity|]. cbn [Str.lstrip Str.split].
  destruct (Str.isspace c) eqn:Hc; [exact IH|].
  cbn [Str.split]. now rewrite Hc.
Qed.

Lemma split_rstrip (s : string) : Str.split (Str.rstrip s) = Str.split s.
Proof.
  destruct (rstrip_prefix s) as [t [Ht Hsp]].
  rewrite Ht at 2. now rewrite split_app_all_space.
Qed.

(** Every word is not empty and holds no white space. *)
Lemma split_word_like (s : string) : forallb word_like (Str.split s) = true.
Proof.
  induction s as [|c s IH]; [reflexivity|]. cbn [Str.split].
  destruct (Str.isspace c) eqn:Hc; [exact IH|].
  destruct (Str.head_is_word s).
  - destruct (Str.split s) as [|w ws]; cbn [forallb] in *.
    + unfold word_like. simpl. now rewrite Hc.
    + apply andb_true_iff in IH as [Hw Hws]. rewrite Hws, andb_true_r.
      unfold word_like in *. cbn [Str.is_empty negb andb all_chars].
      rewrite Hc. cbn [negb andb].
      now apply andb_true_iff in Hw as [_ Hw].
  - cbn [forallb]. rewrite IH, andb_true_r.
    unfold word_like. simpl. now rewrite Hc.
Qed.

Lemma token_count_bound (s : string) :
  2 * token_count_from true s <= String.length s
  /\ 2 * token_count_from false s <= String.length s + 1.
Proof.
  induction s as [|c s [IHt IHf]]; [simpl; lia|].
  cbn [token_count_from String.length].
  destruct (Str.isspace c); lia.
Qed.

Lemma total_length_app (a b : list string) :
  Str.total_length (a ++ b)%list = Str.total_length a + Str.total_length b.
Proof.
  induction a as [|w a IH]; [reflexivity|].
  unfold Str.total_length in *. cbn [app fold_right]. rewrite IH. lia.
Qed.

(** The words of a text do not hold more characters than the text. *)
Lemma total_length_bound (s : string) :
  Str.total_length (Str.split s) <= String.length s.
Proof.
  induction s as [|c s IH]; [reflexivity|]. cbn [Str.split].
  unfold Str.total_length in *.
  destruct (Str.isspace c); [simpl; lia|].
  destruct (Str.head_is_word s).
  - destruct (Str.split s) as [|w ws]; simpl in *; lia.
  - simpl in *. lia.
Qed.

End WordFacts.

Module LevelFacts.
Import Models Validator Spec Terms StrFacts MetricsFacts WordFacts.

Lemma blank_all_space (s : string) : blank s = all_space s.
Proof.
  unfold blank. destruct (all_space s) eqn:E.
  - apply is_empty_true, strip_empty_iff. exact E.
  - destruct (Str.is_empty (Str.strip s)) eqn:E'; [|reflexivity].
    apply is_empty_true, strip_empty_iff in E'. congruence.
Qed.

(** The sentences are all blank exactly when the text is made of periods
    and white space. *)
Lemma blank_sentences (s : string) :
  forallb blank (Str.split_on "." s) = all_chars dot_or_space s.
Proof.
  induction s as [|c s IH]; [reflexivity|].
  cbn [Str.split_on all_chars]. unfold dot_or_space at 1.
  destruct (Ascii.eqb c ".") eqn:Ec.
  - cbn [forallb orb andb]. rewrite <- IH. reflexivity.
  - cbn [orb]. destruct (Str.split_on "." s) as [|w ws] eqn:Es;
      [now apply split_on_not_nil in Es|].
    cbn [forallb] in *. rewrite <- IH, !blank_all_space.
    cbn [all_space]. now rewrite andb_assoc.
Qed.

Lemma filter_nil_forallb {A : Type} (p : A -> bool) (l : list A) :
  filter (fun x => negb (p x)) l = [] <-> forallb p l = true.
Proof.
  induction l as [|x l IH]; simpl; [tauto|].
  destruct (p x); simpl; [exact IH|]. split; discriminate.
Qed.

Lemma no_sentence_iff (text : string) :
  filter (fun s => negb (Str.is_empty (Str.strip s))) (Str.split_on "." text)
  = []
  <-> all_chars dot_or_space text = true.
Proof.
  rewrite <- blank_sentences. apply (filter_nil_forallb blank).
Qed.

Lemma split_nil_all_space (text : string) :
  Str.split text = [] <-> all_space text = true.
Proof. apply split_nil_iff. Qed.

Lemma reading_level_raises (text : string) (e : exn) :
  _estimate_reading_level text = Raise e ->
  e = mk_exn ZeroDivisionError "division by zero".
Proof.
  unfold _estimate_reading_level.
  destruct (is_nil _ || is_nil _); [discriminate|].
  destruct (Str.split text) as [|w ws]; cbn [List.length len_div].
  - destruct (List.length _); cbn [res_bind len_div]; congruence.
  - destruct (List.length (filter _ _)); cbn [res_bind len_div];
      [congruence|].
    repeat (match goal with
            | |- context [if ?c then _ else _] => destruct c
            end); discriminate.
Qed.

Lemma reading_level_range (text level : string) :
  _estimate_reading_level text = Return level ->
  In level levels /\ (level = "Unknown" <-> Str.split text = []).
Proof.
  intros H. destruct (Str.split text) as [|w ws] eqn:Ew.
  - rewrite (reading_level_no_words _ Ew) in H. injection H as <-.
    split; [now left | tauto].
  - assert (Hs : filter (fun s => negb (Str.is_empty (Str.strip s)))
                   (Str.split_on "." text) <> []).
    { assert (Hd : exists l, _estimate_reading_level text = Return l)
        by now exists level.
      apply reading_level_defined_iff in Hd as [Hd|Hd]; congruence. }
    destruct (reading_level_graded text) as [g [Hg Hr]];
      [congruence | exact Hs |].
    rewrite Hr in H. injection H as <-.
    split; [now right|]. split; [|discriminate].
    intros ->. simpl in Hg.
    repeat (destruct Hg as [Hg|Hg]; [discriminate|]). contradiction.
Qed.

Lemma reading_level_not_empty (text level : string) :
  _estimate_reading_level text = Return level -> level <> "".
Proof.
  intros H. apply reading_level_range in H as [H _]. simpl in H.
  repeat (destruct H as [<-|H]; [discriminate|]). contradiction.
Qed.

(** Where the estimate raises. *)
Lemma reading_level_raises_chars (text : string) (e : exn) :
  _estimate_reading_level text = Raise e
  <-> (all_space text = false
       /\ all_chars dot_or_space text = true
       /\ e = mk_exn ZeroDivisionError "division by zero").
Proof.
  split.
  - intros H. pose proof (reading_level_raises _ _ H) as ->.
    assert (Hn : ~ exists l, _estimate_reading_level text = Return l)
      by (intros [l Hl]; congruence).
    rewrite reading_level_defined_iff in Hn.
    split; [|split; [|reflexivity]].
    + destruct (all_space text) eqn:E; [|reflexivity].
      exfalso. apply Hn. left. now apply split_nil_iff.
    + apply no_sentence_iff.
      destruct (filter _ (Str.split_on "." text)) eqn:E; [reflexivity|].
      exfalso. apply Hn. right. discriminate.
  - intros (Hs & Hd & ->).
    destruct (_estimate_reading_level text) as [l|e] eqn:E.
    + exfalso.
      assert (Hx : exists l, _estimate_reading_level text = Return l)
        by now exists l.
      apply reading_level_defined_iff in Hx as [Hx|Hx].
      * apply split_nil_iff in Hx. congruence.
      * apply Hx. now apply no_sentence_iff.
    + now rewrite (reading_level_raises _ _ E).
Qed.

End LevelFacts.

(* ====================================================================== *)
(** * Further properties of the text metrics *)
(* ====================================================================== *)

Import Terms WordFacts LevelFacts.

(** X1.  The word count is additive over a white-space character: the
    count of [a], a white-space character and [b] is the count of [a] plus
    the count of [b]; and trimming a text does not change its count. *)
Theorem word_count_additive (a b : string) (sp : ascii) :
  Str.isspace sp = true ->
  _calculate_word_count (a ++ String sp b)
  = _calculate_word_count a + _calculate_word_count b
  /\ _calculate_word_count (Str.strip a) = _calculate_word_count a.
Proof.
  intros Hsp. unfold _calculate_word_count. split.
  - rewrite (split_app_space _ _ _ Hsp). apply length_app.
  - unfold Str.strip. now rewrite split_lstrip, split_rstrip.
Qed.

Lemma word_count_additive_witness :
  _calculate_word_count ("  Apply now " ++ String " " "and enjoy")
  = _calculate_word_count "  Apply now " + _calculate_word_count "and enjoy"
  /\ _calculate_word_count (Str.strip "  Apply now ")
     = _calculate_word_count "  Apply now ".
Proof.
  apply (word_count_additive "  Apply now " "and enjoy" " "). reflexivity.
Defined.

(** X2.  The words that [_calculate_word_count] counts are never empty and
    hold no white space; together they hold no more characters than the
    text; there are at most (len + 1) / 2 of them, and none exactly when the
    text is blank. *)
Theorem words_invariants (text : string) :
  forallb word_like (Str.split text) = true
  /\ Str.total_length (Str.split text) <= String.length text
  /\ 2 * _calculate_word_count text <= String.length text + 1
  /\ (_calculate_word_count text = 0 <-> all_space text = true).
Proof.
  split; [apply split_word_like|]. split; [apply total_length_bound|].
  split.
  - rewrite word_count_is_token_count. apply token_count_bound.
  - unfold _calculate_word_count. rewrite length_zero_iff_nil.
    apply split_nil_iff.
Qed.

(** X3.  [_estimate_reading_level] raises exactly on the texts that are not
    blank and are made of periods and white space only, and what it raises
    is the [ZeroDivisionError] of the average sentence length. *)
Theorem reading_level_raises_iff (text : string) (e : exn) :
  _estimate_reading_level text = Raise e
  <-> (all_space text = false
       /\ all_chars dot_or_space text = true
       /\ e = mk_exn ZeroDivisionError "division by zero").
Proof. apply reading_level_raises_chars. Qed.

Lemma reading_level_raises_iff_witness :
  _estimate_reading_level (". . ." ++ LF)
  = Raise (mk_exn ZeroDivisionError "division by zero").
Proof.
  apply (proj2 (reading_level_raises_iff (". . ." ++ LF)
                  (mk_exn ZeroDivisionError "division by zero"))).
  repeat split.
Defined.

(** X4.  A level that [_estimate_reading_level] returns is one of the four
    labels "Unknown", "Grade 12+", "Grade 10-12" and "Grade 8 or below", and
    it is "Unknown" exactly when the text has no word. *)
Theorem reading_level_labels (text level : string) :
  _estimate_reading_level text = Return level ->
  In level levels /\ (level = "Unknown" <-> Str.split text = []).
Proof. apply reading_level_range. Qed.

Lemma reading_level_labels_witness :
  In "Grade 8 or below" levels
  /\ ("Grade 8 or below" = "Unknown" <-> Str.split Samples.promo = []).
Proof.
  apply (reading_level_labels Samples.promo "Grade 8 or below").
  vm_compute. reflexivity.
Defined.

(* ====================================================================== *)
(** * Further properties of [validate_listing] *)
(* ====================================================================== *)

Module MoreRunFacts.
Import Models Validator Spec Terms StrFacts MetricsFacts ModelsFacts
  PipelineFacts LevelFacts.

Lemma float_field_range (model : string) (v : option pyval) (f : float) :
  float_field model 0 10 v = Return f -> float_between 0 f 10 = true.
Proof.
  unfold float_field, invalid.
  destruct v as [[| b | z | g | s | |]|]; try discriminate.
  - destruct (float_between 0 (if b then one else zero) 10) eqn:E;
      [|discriminate]. intros H; injection H as <-. exact E.
  - destruct (float_between 0 (float_of_int z) 10) eqn:E; [|discriminate].
    intros H; injection H as <-. exact E.
  - destruct (float_between 0 g 10) eqn:E; [|discriminate].
    intros H; injection H as <-. exact E.
  - destruct (str_as_float s) as [g|]; [|discriminate].
    destruct (float_between 0 g 10) eqn:E; [|discriminate].
    intros H; injection H as <-. exact E.
Qed.

(** The reading level of a result that [parse_response] returns. *)
Lemma parse_response_level (listing text : string) (r : ValidationResponse) :
  parse_response listing text = Return r ->
  exists level, reading_level r = Some level /\ level <> "".
Proof.
  unfold parse_response.
  destruct (Json.loads text) as [v|]; [cbn [res_bind]|discriminate].
  destruct (keys v) as [d|]; [cbn [res_bind]|discriminate].
  set (d1 := dict_set "word_count" _ d).
  destruct (negb (dict_has "reading_level" d1)) eqn:Hh; cbn [orb].
  - destruct (_estimate_reading_level listing) as [level|] eqn:El;
      [cbn [res_bind]|discriminate].
    intros H. apply response_init_fields in H as (_&_&_&_&_&Hl).
    rewrite dict_get_set_same in Hl. cbn in Hl. injection Hl as <-.
    exists level. split; [reflexivity|].
    now apply reading_level_not_empty in El.
  - destruct (dict_get "reading_level" d1) as [v0|] eqn:Eg.
    + destruct (truthy v0) eqn:Et; cbn [negb].
      * cbn [res_bind]. intros H.
        apply response_init_fields in H as (_&_&_&_&_&Hl).
        rewrite Eg in Hl. destruct v0; try discriminate.
        cbn in Hl. injection Hl as <-. exists s. split; [reflexivity|].
        intros ->. discriminate.
      * destruct (_estimate_reading_level listing) as [level|] eqn:El;
          [cbn [res_bind]|discriminate].
        intros H. apply response_init_fields in H as (_&_&_&_&_&Hl).
        rewrite dict_get_set_same in Hl. cbn in Hl. injection Hl as <-.
        exists level. split; [reflexivity|].
        now apply reading_level_not_empty in El.
    + unfold dict_has in Hh. rewrite Eg in Hh. discriminate.
Qed.

Lemma parse_response_score (listing text : string) (r : ValidationResponse) :
  parse_response listing text = Return r ->
  float_between 0 (compliance_score r) 10 = true.
Proof.
  unfold parse_response.
  destruct (Json.loads text) as [v|]; [cbn [res_bind]|discriminate].
  destruct (keys v) as [d|]; [cbn [res_bind]|discriminate].
  destruct (_ || _).
  - destruct (_estimate_reading_level listing); [cbn [res_bind]|discriminate].
    intros H. apply response_init_fields in H as (_&H&_).
    now apply float_field_range in H.
  - cbn [res_bind]. intros H. apply response_init_fields in H as (_&H&_).
    now apply float_field_range in H.
Qed.

Lemma interpret_invariants (listing text : string) (r : ValidationResponse) :
  interpret listing text = Return r ->
  float_between 0 (compliance_score r) 10 = true
  /\ exists level, reading_level r = Some level /\ level <> "".
Proof.
  unfold interpret.
  destruct (parse_response listing text) as [r'|e] eqn:Ep.
  - intros H; injection H as <-. split;
      [now apply parse_response_score in Ep
      | now apply parse_response_level in Ep].
  - assert (Hsys : forall e0,
               system_error_response listing e0 = Return r ->
               float_between 0 (compliance_score r) 10 = true
               /\ exists level, reading_level r = Some level /\ level <> "").
    { intros e0 H. apply system_error_response_inv in H as [level [Hl ->]].
      split; [reflexivity|]. exists level. split; [reflexivity|].
      now apply reading_level_not_empty in Hl. }
    destruct (isinstance e JSONDecodeError); [|apply Hsys].
    destruct (_create_fallback_response listing text) as [r'|e'] eqn:Ef;
      [|apply Hsys].
    intros H; injection H as <-.
    apply fallback_response_inv in Ef as [level [Hl ->]].
    split; [reflexivity|]. exists level. split; [reflexivity|].
    now apply reading_level_not_empty in Hl.
Qed.

(** ** Trimming *)

Lemma strip_app_space_l (a s : string) :
  all_space a = true -> Str.strip (a ++ s) = Str.strip s.
Proof.
  intros Ha. unfold Str.strip. induction a as [|c a IH]; [reflexivity|].
  simpl in Ha. apply andb_true_iff in Ha as [Hc Ha].
  simpl append. rewrite lstrip_rstrip_cons_space by exact Hc. now apply IH.
Qed.

Lemma strip_margins (a s b : string) :
  all_space a = true -> all_space b = true ->
  Str.strip (a ++ s ++ b) = Str.strip s.
Proof.
  intros Ha Hb. rewrite strip_app_space_l by exact Ha.
  unfold Str.strip. now rewrite rstrip_app_space.
Qed.

Lemma length_take (n : nat) (s : string) :
  String.length (Str.take n s) = Nat.min n (String.length s).
Proof.
  revert s; induction n as [|n IH]; intros [|c s]; simpl; try reflexivity.
  now rewrite IH.
Qed.

Lemma take_all (n : nat) (s : string) :
  String.length s <= n -> Str.take n s = s.
Proof.
  revert s; induction n as [|n IH]; intros [|c s] H; simpl in *;
    try reflexivity; try lia.
  now rewrite IH by lia.
Qed.

Lemma length_append (a b : string) :
  String.length (a ++ b) = String.length a + String.length b.
Proof. induction a as [|c a IH]; simpl; [reflexivity | now rewrite IH]. Qed.

End MoreRunFacts.

Import MoreRunFacts.

(** X5.  When the service raises and the reading level of the listing can
    be estimated, [validate_listing] returns the system-error response: not
    compliant, score 0.0, one high "System Error" issue of category Content
    Quality that quotes the text of the exception after "Validation failed: ",
    the fixed suggestions, and the metrics of the listing. *)
Theorem service_failure_response (self : MarketplaceValidator)
  (listing level : string) (w : World) (e : exn) :
  service w (completion_request (prompt_for self listing)) = Raise e ->
  _estimate_reading_level listing = Return level ->
  fst (validate_listing self listing w)
  = Return {| status := non_compliant;
              compliance_score := 0;
              issues :=
                [ {| category := CONTENT_QUALITY;
                     rule_violated := "System Error";
                     current_text := "N/A";
                     issue := "Validation failed: " ++ exn_str e;
                     suggested_fix := "Please try again or contact support";
                     severity := high |} ];
              suggestions :=
                "System error occurred during validation. Please try again.";
              word_count := Z.of_nat (_calculate_word_count listing);
              reading_level := Some level |}.
Proof.
  intros Hs Hl. rewrite validate_listing_run, Hs. cbn [fst].
  unfold system_error_response. now rewrite Hl.
Qed.

Lemma service_failure_response_witness :
  fst (validate_listing ready greeting (failing timeout))
  = Return {| status := non_compliant;
              compliance_score := 0;
              issues :=
                [ {| category := CONTENT_QUALITY;
                     rule_violated := "System Error";
                     current_text := "N/A";
                     issue := "Validation failed: " ++ exn_str timeout;
                     suggested_fix := "Please try again or contact support";
                     severity := high |} ];
              suggestions :=
                "System error occurred during validation. Please try again.";
              word_count := Z.of_nat (_calculate_word_count greeting);
              reading_level := Some "Grade 10-12" |}.
Proof.
  apply (service_failure_response ready greeting "Grade 10-12"
           (failing timeout) timeout).
  - reflexivity.
  - vm_compute. reflexivity.
Defined.

(** X6.  Every call of [validate_listing] sends exactly one request, also
    when the service fails (there is no retry), and leaves the service as it
    was; its result depends on the world only through the answer to that
    request. *)
Theorem one_request_per_call (self : MarketplaceValidator)
  (listing : string) (w : World) :
  snd (validate_listing self listing w)
  = mk_world (service w)
      (Completion (completion_request (prompt_for self listing))
       :: Validating listing :: trace w)
  /\ forall w',
       service w' (completion_request (prompt_for self listing))
       = service w (completion_request (prompt_for self listing)) ->
       fst (validate_listing self listing w')
       = fst (validate_listing self listing w).
Proof.
  split; [now rewrite validate_listing_run|].
  intros w' H. rewrite !validate_listing_run. cbn [fst]. now rewrite H.
Qed.

(** X8.  Every result that [validate_listing] returns has a score between
    0 and 10 and a reading level that is present and not empty. *)
Theorem result_invariants (self : MarketplaceValidator) (listing : string)
  (w : World) (r : ValidationResponse) :
  fst (validate_listing self listing w) = Return r ->
  float_between 0 (compliance_score r) 10 = true
  /\ exists level, reading_level r = Some level /\ level <> "".
Proof.
  rewrite validate_listing_run. cbn [fst].
  destruct (service w _) as [raw|e]; [apply interpret_invariants|].
  intros H. apply system_error_response_inv in H as [level [Hl ->]].
  split; [reflexivity|]. exists level. split; [reflexivity|].
  now apply reading_level_not_empty in Hl.
Qed.

Lemma result_invariants_witness :
  exists r,
    fst (validate_listing ready promo (answering (fenced "json" verdict)))
    = Return r
    /\ float_between 0 (compliance_score r) 10 = true
    /\ exists level, reading_level r = Some level /\ level <> "".
Proof.
  eexists. split; [vm_compute; reflexivity|].
  apply (result_invariants ready promo (answering (fenced "json" verdict))).
  vm_compute. reflexivity.
Defined.

(** X9.  White space around the answer of the service is ignored: an
    answer with white space before and after it gives the result of the
    answer alone. *)
Theorem answer_margins_ignored (self : MarketplaceValidator)
  (listing before raw after : string) :
  all_space before = true -> all_space after = true ->
  fst (validate_listing self listing (answering (before ++ raw ++ after)))
  = fst (validate_listing self listing (answering raw)).
Proof.
  intros Hb Ha. rewrite !validate_listing_run. cbn [fst answering service].
  unfold cleaned. now rewrite strip_margins.
Qed.

Lemma answer_margins_ignored_witness :
  fst (validate_listing ready promo
         (answering ((LF ++ " ") ++ verdict ++ (" " ++ LF))))
  = fst (validate_listing ready promo (answering verdict)).
Proof.
  apply (answer_margins_ignored ready promo (LF ++ " ") verdict (" " ++ LF));
    reflexivity.
Defined.

(** X10.  The suggestions of the fallback response quote at most 200
    characters of the answer: they are never longer than 260 characters, and
    an answer of at most 200 characters is quoted whole. *)
Theorem fallback_suggestions_bounded (listing llm_response : string)
  (r : ValidationResponse) :
  _create_fallback_response listing llm_response = Return r ->
  String.length (suggestions r) <= 260
  /\ (String.length llm_response <= 200 ->
      suggestions r
      = "Validation completed but response format was unexpected: "
        ++ llm_response ++ "...").
Proof.
  intros H. apply fallback_response_inv in H as [level [_ ->]].
  cbn [suggestions]. split.
  - rewrite !length_append, length_take. simpl String.length. lia.
  - intros Hl. now rewrite take_all.
Qed.

Lemma fallback_suggestions_bounded_witness :
  exists r,
    _create_fallback_response greeting prose = Return r
    /\ String.length (suggestions r) <= 260
    /\ (String.length prose <= 200 ->
        suggestions r
        = "Validation completed but response format was unexpected: "
          ++ prose ++ "...").
Proof.
  eexists. split; [vm_compute; reflexivity|].
  apply (fallback_suggestions_bounded greeting prose).
  vm_compute. reflexivity.
Defined.

(* ====================================================================== *)
(** * Further properties of the schemas *)
(* ====================================================================== *)

Module MoreModelsFacts.
Import Models Validator Spec Terms StrFacts ModelsFacts.

Lemma choice_field_missing {A : Type} (model : string) (value : A -> string)
  (members : list A) :
  choice_field model value members None = Raise (validation_error model).
Proof. reflexivity. Qed.

Lemma response_init_missing (kw : dict) (k : string) :
  In k required_keys -> dict_get k kw = None ->
  exists e, ValidationResponse_init kw = Raise e
            /\ exn_type e = ValidationError.
Proof.
  intros Hk Hg. destruct (ValidationResponse_init kw) as [r|e] eqn:E.
  - exfalso. apply response_init_fields in E as (Hs & Hf & _ & Hg' & Hw & _).
    simpl in Hk. destruct Hk as [<-|[<-|[<-|[<-|[]]]]];
      rewrite Hg in *; discriminate.
  - exists e. split; [reflexivity|]. now apply response_init_raises in E.
Qed.

Lemma dict_set_unknown (kw : dict) (k : string) (v : pyval) :
  ~ In k field_keys ->
  forall f, In f field_keys -> dict_get f (dict_set k v kw) = dict_get f kw.
Proof.
  intros Hk f Hf. apply dict_get_set_other. intros ->. contradiction.
Qed.

Lemma response_init_encode_plain (r : ValidationResponse) (n : Z) :
  ValidationResponse_init (encode_response r n)
  = if float_between 0 (compliance_score r) 10
    then Return {| status := status r;
                   compliance_score := compliance_score r;
                   issues := issues r;
                   suggestions := suggestions r;
                   word_count := n;
                   reading_level := reading_level r |}
    else Raise (validation_error "ValidationResponse").
Proof.
  destruct r as [st sc is_ sg wc rl].
  unfold ValidationResponse_init, encode_response.
  destruct rl as [l|];
    cbn -[member status_value issue_items float_between];
    rewrite member_status; cbn [res_bind];
    destruct (float_between 0 sc 10); cbn [res_bind]; try reflexivity;
    rewrite issue_items_encode; reflexivity.
Qed.

End MoreModelsFacts.

Import MoreModelsFacts.

(** X11.  [ValidationResponse] is built only from arguments that hold
    [status], [compliance_score], [suggestions] and [word_count]; [issues]
    and [reading_level] may be missing, and the result then has no issue,
    respectively no reading level.  Whatever is wrong with the arguments, the
    exception is a [ValidationError]. *)
Theorem required_and_default_fields (kw : dict) :
  match ValidationResponse_init kw with
  | Return r =>
      (forall k, In k required_keys -> dict_get k kw <> None)
      /\ (dict_get "issues" kw = None -> issues r = [])
      /\ (dict_get "reading_level" kw = None -> reading_level r = None)
  | Raise e => exn_type e = ValidationError
  end.
Proof.
  destruct (ValidationResponse_init kw) as [r|e] eqn:E.
  - split.
    + intros k Hk Hg.
      destruct (response_init_missing kw k Hk Hg) as [e [He _]]. congruence.
    + apply response_init_fields in E as (_&_&Hi&_&_&Hl).
      split; intros Hg; rewrite Hg in *; cbn in *; congruence.
  - now apply response_init_raises in E.
Qed.

(** X12.  A key that names no field of [ValidationResponse] is ignored:
    adding it to the arguments, or changing its value, changes neither the
    result nor the failure. *)
Theorem unknown_keys_ignored (kw : dict) (k : string) (v : pyval) :
  ~ In k field_keys ->
  ValidationResponse_init (dict_set k v kw) = ValidationResponse_init kw.
Proof.
  intros Hk. unfold ValidationResponse_init.
  rewrite !(dict_set_unknown kw k v Hk) by (simpl; tauto). reflexivity.
Qed.

Lemma unknown_keys_ignored_witness :
  ValidationResponse_init
    (dict_set "confidence" (PFloat 1)
       (encode_response terse_result 1))
  = ValidationResponse_init (encode_response terse_result 1).
Proof.
  apply (unknown_keys_ignored (encode_response terse_result 1) "confidence"
           (PFloat 1)).
  simpl. intros [H|[H|[H|[H|[H|[H|[]]]]]]]; discriminate.
Defined.

(** X13.  The schema accepts the JSON form of a result exactly when the
    score of the result is between 0 and 10, and then gives the result back
    field by field, issues in order, with the word count that the JSON form
    reports; otherwise it raises a [ValidationError]. *)
Theorem schema_round_trip (r : ValidationResponse) (n : Z) :
  ValidationResponse_init (encode_response r n)
  = if float_between 0 (compliance_score r) 10
    then Return {| status := status r;
                   compliance_score := compliance_score r;
                   issues := issues r;
                   suggestions := suggestions r;
                   word_count := n;
                   reading_level := reading_level r |}
    else Raise (validation_error "ValidationResponse").
Proof. apply response_init_encode_plain. Qed.

(* ====================================================================== *)
(** * Further properties of the prompt, the start-up and the endpoints *)
(* ====================================================================== *)

Module ServiceFacts.
Import Models Validator Spec Terms StrFacts ReplaceFacts MetricsFacts
  ModelsFacts PipelineFacts RunFacts LevelFacts MoreRunFacts.

(** The placeholder does not overlap itself: a match that starts before a
    placeholder ends before it. *)
Lemma placeholder_no_overlap (u r : string) :
  u <> "" ->
  Str.startswith placeholder (u ++ placeholder ++ r) = true ->
  Str.startswith placeholder u = true.
Proof.
  intros Hu H. unfold placeholder in *.
  do 13 (destruct u as [|? u];
         [ try congruence; simpl in H;
           repeat (apply andb_true_iff in H; destruct H as [H0 H];
                   try discriminate H0; clear H0);
           discriminate H
         | ]).
  simpl in H |- *. exact H.
Qed.

Lemma no_match_before_placeholder (pre r : string) :
  Str.contains placeholder pre = false ->
  no_match_within placeholder pre (placeholder ++ r) = true.
Proof.
  induction pre as [|x pre IH]; intros H; [reflexivity|].
  rewrite contains_unfold in H. apply orb_false_iff in H as [Hs Hp].
  cbn [no_match_within]. rewrite (IH Hp), andb_true_r.
  apply negb_true_iff.
  destruct (Str.startswith placeholder (String x pre ++ placeholder ++ r))
    eqn:E; [|reflexivity].
  apply placeholder_no_overlap in E; [congruence | discriminate].
Qed.

Lemma contains_app_false (old a b b' : string) (c : ascii) :
  b = String c b' -> has_char c old = false ->
  Str.contains old a = false -> Str.contains old b = false ->
  Str.contains old (a ++ b) = false.
Proof.
  intros -> Hc Ha Hb. induction a as [|x a IH]; [exact Hb|].
  rewrite contains_unfold in Ha. apply orb_false_iff in Ha as [Hs Ha].
  simpl append. rewrite contains_unfold.
  change (String x (a ++ String c b')) with (String x a ++ String c b').
  rewrite (IH Ha), orb_false_r.
  destruct (Str.startswith old (String x a ++ String c b')) eqn:E;
    [|reflexivity].
  apply (ReplaceFacts.startswith_stays) in E; [congruence | exact Hc].
Qed.

Lemma prompt_of_template (key pre post listing : string) :
  Str.contains placeholder pre = false ->
  Str.contains placeholder post = false ->
  prompt_for
    (mk_validator key
       ((pre ++ placeholder ++ post) ++ structured_output_instruction))
    listing
  = pre ++ listing ++ post ++ structured_output_instruction.
Proof.
  intros Hpre Hpost. unfold prompt_for. cbn [validation_prompt].
  rewrite !append_assoc.
  unfold Str.replace.
  rewrite (replace_from_no_match "{" "{ listing }}" listing pre)
    by now apply no_match_before_placeholder.
  f_equal. unfold placeholder.
  rewrite replace_from_match. f_equal.
  apply replace_from_absent.
  apply (contains_app_false _ _ _
           (Str.drop 1 structured_output_instruction) (ascii_of_nat 10));
    [vm_compute; reflexivity | reflexivity | exact Hpost
    | vm_compute; reflexivity].
Qed.

(** With a stated reading level the estimate is not asked. *)
Lemma stated_level_kept (listing : string) (r0 : ValidationResponse) (n : Z)
  (stated : string) :
  reading_level r0 = Some stated -> stated <> "" ->
  needs_level (with_count listing (encode_response r0 n)) = false.
Proof.
  intros Hr Hs. destruct r0 as [st sc is_ sg wc rl]. cbn in Hr. subst rl.
  destruct stated as [|c l]; [congruence|]. reflexivity.
Qed.

Lemma reading_level_of_raise (v : MarketplaceValidator) (s : string)
  (w : World) (e : exn) :
  fst (validate_listing v s w) = Raise e ->
  all_space s = false /\ all_chars dot_or_space s = true.
Proof.
  intros H. destruct (_estimate_reading_level s) as [level|e'] eqn:El.
  - destruct (validate_listing_returns v s level w El) as [r Hr]. congruence.
  - apply reading_level_raises_chars in El as (Ha & Hd & _). now split.
Qed.

Lemma request_init_inv (request_body : dict) (request : ValidationRequest) :
  ValidationRequest_init request_body = Return request ->
  dict_get "listing" request_body = Some (PStr (listing request)).
Proof.
  unfold ValidationRequest_init.
  destruct (dict_get "listing" request_body) as [[| | | |s| |]|];
    try discriminate.
  destruct (_ && _); [|discriminate]. intros H. injection H as <-.
  reflexivity.
Qed.

End ServiceFacts.

Import ServiceFacts.

(** X14.  With a template that holds the placeholder once, the prompt is
    the text before the placeholder, the listing as it is, the text after
    the placeholder and the output instructions: the listing is not scanned
    again, whatever it contains, and the instructions stay whole at the
    end. *)
Theorem prompt_shape (key pre post listing : string) :
  Str.contains placeholder pre = false ->
  Str.contains placeholder post = false ->
  _load_validation_prompt
    (mk_env (Some key) (Return (pre ++ placeholder ++ post)))
  = Return ((pre ++ placeholder ++ post) ++ structured_output_instruction)
  /\ prompt_for
       (mk_validator key
          ((pre ++ placeholder ++ post) ++ structured_output_instruction))
       listing
     = pre ++ listing ++ post ++ structured_output_instruction.
Proof.
  intros Hpre Hpost. split; [reflexivity|]. now apply prompt_of_template.
Qed.

Lemma prompt_shape_witness :
  _load_validation_prompt
    (mk_env (Some "sk-test") (Return ("Listing: " ++ placeholder ++ LF)))
  = Return (("Listing: " ++ placeholder ++ LF)
            ++ structured_output_instruction)
  /\ prompt_for
       (mk_validator "sk-test"
          (("Listing: " ++ placeholder ++ LF)
           ++ structured_output_instruction))
       "Pay {{ listing }} never."
     = "Listing: " ++ "Pay {{ listing }} never." ++ LF
       ++ structured_output_instruction.
Proof.
  apply (prompt_shape "sk-test" "Listing: " LF "Pay {{ listing }} never.");
    reflexivity.
Defined.

(** X15.  A payload that states its reading level is returned for every
    listing, also for one whose reading level cannot be estimated: the
    result is the stated result with the word count of the listing. *)
Theorem stated_level_round_trip (self : MarketplaceValidator)
  (listing raw stated : string) (w : World) (r0 : ValidationResponse)
  (n : Z) :
  service w (completion_request (prompt_for self listing)) = Return raw ->
  Json.loads (cleaned raw) = Return (PDict (encode_response r0 n)) ->
  float_between 0 (compliance_score r0) 10 = true ->
  reading_level r0 = Some stated -> stated <> "" ->
  fst (validate_listing self listing w)
  = Return {| status := status r0;
              compliance_score := compliance_score r0;
              issues := issues r0;
              suggestions := suggestions r0;
              word_count := Z.of_nat (_calculate_word_count listing);
              reading_level := Some stated |}.
Proof.
  intros Hs Hj Hb Hr Hne.
  pose proof (stated_level_kept listing r0 n stated Hr Hne) as Hn.
  rewrite validate_listing_run, Hs. cbn [fst]. unfold interpret.
  rewrite (parse_response_leveled _ _ _ Hj Hn).
  replace (with_count listing (encode_response r0 n))
    with (with_metrics listing "" (encode_response r0 n))
    by (unfold with_metrics; now rewrite Hn).
  rewrite (response_init_encode listing "" r0 n Hb).
  unfold kept_level. rewrite Hr.
  destruct stated; [congruence | reflexivity].
Qed.

Lemma stated_level_round_trip_witness :
  fst (validate_listing ready dots (answering MoreSamples.leveled_verdict))
  = Return {| status := compliant;
              compliance_score := 9;
              issues := [];
              suggestions := "None.";
              word_count := Z.of_nat (_calculate_word_count dots);
              reading_level := Some "Grade 9" |}.
Proof.
  apply (stated_level_round_trip ready dots MoreSamples.leveled_verdict
           "Grade 9" (answering MoreSamples.leveled_verdict)
           MoreSamples.leveled_result 7).
  - reflexivity.
  - vm_compute. reflexivity.
  - reflexivity.
  - reflexivity.
  - discriminate.
Defined.

(** X16.  Start-up: without a credential, or with an empty one, the
    validator is absent whatever the template file does.  With a credential
    the validator holds the template followed by the output instructions; a
    missing file gives the built-in policy instead; a read error that is a
    [ValueError] leaves the validator absent although the credential is
    there; any other read error ends the start-up with that error. *)
Theorem startup_outcome (env : Env) :
  Main.validator env
  = match OPENAI_API_KEY env with
    | None => Return None
    | Some key =>
        if Str.is_empty key then Return None
        else match prompt_file env with
             | Return base =>
                 Return (Some (mk_validator key
                                 (base ++ structured_output_instruction)))
             | Raise e =>
                 if isinstance e FileNotFoundError
                 then Return (Some (mk_validator key _get_fallback_prompt))
                 else if isinstance e ValueError then Return None
                 else Raise e
             end
    end.
Proof.
  unfold Main.validator, __init__, str_or, str_truthy, _load_validation_prompt.
  destruct env as [[key|] file]; cbn [OPENAI_API_KEY prompt_file];
    [|reflexivity].
  destruct (Str.is_empty key); [reflexivity|].
  destruct file as [base|e]; cbn [res_bind]; [reflexivity|].
  destruct (isinstance e FileNotFoundError); reflexivity.
Qed.

(** X17.  The health endpoint and the validation endpoint agree: health is
    "degraded" exactly when the validation handler answers 503, and then the
    handler leaves the world untouched; with a validator the handler always
    answers 200 or 500. *)
Theorem health_matches_availability
  (validator : option MarketplaceValidator) (request : ValidationRequest)
  (w : World) :
  exists r,
    fst (Main.validate_listing validator request w) = Return r
    /\ (status_code r = 503%Z
        <-> Health.status (Health.health_check validator) = "degraded")
    /\ (status_code r = 503%Z ->
        snd (Main.validate_listing validator request w) = w)
    /\ (Health.status (Health.health_check validator) = "healthy" ->
        status_code r = 200%Z \/ status_code r = 500%Z).
Proof.
  destruct validator as [v|]; unfold Main.validate_listing.
  - destruct (validate_listing v (listing request) w) as [[r|e] w'];
      eexists; (split; [reflexivity|]);
      cbn [status_code Health.status Health.health_check];
      repeat split; intros; try discriminate; auto.
  - eexists. split; [reflexivity|].
    cbn [status_code Health.status Health.health_check ret snd].
    repeat split; intros; try discriminate; auto.
Qed.

(** X18.  The route answers every body with one of the codes 200, 422, 500
    and 503: 422 exactly for a body that the request schema rejects, 503
    exactly for a valid request without validator, and 500 only for a
    listing that is not blank and is made of periods and white space. *)
Theorem route_status_codes (validator : option MarketplaceValidator)
  (request_body : dict) (w : World) :
  exists r,
    fst (Main.post_validate validator request_body w) = Return r
    /\ In (status_code r) [200; 422; 500; 503]%Z
    /\ (status_code r = 422%Z
        <-> exists e, ValidationRequest_init request_body = Raise e)
    /\ (status_code r = 503%Z
        <-> validator = None
            /\ exists request,
                 ValidationRequest_init request_body = Return request)
    /\ (status_code r = 500%Z ->
        exists s,
          dict_get "listing" request_body = Some (PStr s)
          /\ all_space s = false
          /\ all_chars dot_or_space s = true).
Proof.
  unfold Main.post_validate.
  destruct (ValidationRequest_init request_body) as [request|e0] eqn:Er.
  - destruct validator as [v|]; cbn [Main.validate_listing].
    + destruct (validate_listing v (listing request) w) as [[r|e] w'] eqn:Ev;
        eexists; (split; [reflexivity|]); cbn [status_code].
      * split; [simpl; tauto|].
        repeat split; try discriminate;
          try (intros [e1 He1]; discriminate);
          try (intros [Hn _]; discriminate).
      * split; [simpl; tauto|].
        repeat split; try discriminate;
          try (intros [e1 He1]; discriminate);
          try (intros [Hn _]; discriminate).
        intros _. exists (listing request).
        split; [now apply request_init_inv|].
        apply (reading_level_of_raise v (listing request) w e).
        now rewrite Ev.
    + eexists. split; [reflexivity|]. cbn [status_code].
      split; [simpl; tauto|].
      repeat split; try discriminate;
        try (intros [e1 He1]; discriminate).
      now exists request.
  - eexists. split; [reflexivity|]. cbn [status_code].
    split; [simpl; tauto|].
    repeat split; try discriminate.
    + now exists e0.
    + intros [_ [request Hq]]. discriminate.
Qed.

(* ====================================================================== *)
(** * Further properties of the fence removal *)
(* ====================================================================== *)

Module FenceFacts.
Import Models Validator Spec Terms StrFacts ReplaceFacts.

Local Abbreviation unfence := (Str.replace_from "```" "" 0).

Lemma unfence_match (t : string) : unfence ("```" ++ t) = unfence t.
Proof. now rewrite replace_from_match. Qed.

Lemma unfence_no_match (c : ascii) (s : string) :
  Str.startswith "```" (String c s) = false ->
  unfence (String c s) = String c (unfence s).
Proof. intros H. cbn [Str.replace_from]. now rewrite H. Qed.

(** A text that does not start with a backquote keeps that after the
    removal. *)
Lemma unfence_head (s : string) :
  Str.startswith "`" s = false -> Str.startswith "`" (unfence s) = false.
Proof.
  destruct s as [|c s]; [reflexivity|]. intros H.
  rewrite unfence_no_match.
  - exact H.
  - cbn [Str.startswith] in H |- *. rewrite andb_true_r in H. now rewrite H.
Qed.

Lemma startswith_three (a b : ascii) (x : string) :
  Str.startswith "`" x = false ->
  Str.startswith "```" (String a (String b x)) = false.
Proof.
  intros H. cbn [Str.startswith]. destruct x as [|c x].
  - now rewrite !andb_false_r.
  - cbn [Str.startswith] in H. rewrite andb_true_r in H.
    rewrite H. cbn [andb]. now rewrite !andb_false_r.
Qed.

(** What is left never starts with three backquotes. *)
Lemma unfence_start (n : nat) (s : string) :
  String.length s <= n -> Str.startswith "```" (unfence s) = false.
Proof.
  revert s. induction n as [|n IH]; intros s Hn.
  - destruct s; [reflexivity | simpl in Hn; lia].
  - destruct (Str.startswith "```" s) eqn:E.
    + destruct s as [|a [|b [|c t]]]; cbn [Str.startswith] in E;
        try discriminate;
        try (rewrite !andb_false_r in E; discriminate).
      repeat (apply andb_true_iff in E; destruct E as [E0 E];
              apply Ascii.eqb_eq in E0; subst).
      change (String "`" (String "`" (String "`" t))) with ("```" ++ t).
      rewrite unfence_match. apply IH. simpl in Hn. lia.
    + destruct s as [|a s1]; [reflexivity|].
      rewrite (unfence_no_match _ _ E).
      destruct s1 as [|b s2].
      * cbn [Str.startswith Str.replace_from]. now rewrite !andb_false_r.
      * destruct (Str.startswith "```" (String b s2)) eqn:Eb.
        -- (* [a] is no backquote, or [s] would start with four *)
           destruct s2 as [|c [|d t]]; cbn [Str.startswith] in Eb;
             try discriminate;
             try (rewrite !andb_false_r in Eb; discriminate).
           repeat (apply andb_true_iff in Eb; destruct Eb as [E0 Eb];
                   apply Ascii.eqb_eq in E0; subst).
           cbn [Str.startswith] in E. cbn [andb] in E.
           rewrite !andb_true_r in E.
           cbn [Str.startswith]. now rewrite E.
        -- rewrite (unfence_no_match _ _ Eb).
           destruct (Ascii.eqb "`" a) eqn:Ea;
             [|cbn [Str.startswith]; now rewrite Ea].
           destruct (Ascii.eqb "`" b) eqn:Eb';
             [|cbn [Str.startswith]; rewrite Eb'; cbn [andb];
               now rewrite andb_false_r].
           apply startswith_three, unfence_head.
           cbn [Str.startswith] in E. rewrite Ea, Eb' in E. cbn [andb] in E.
           destruct s2 as [|c s3]; [reflexivity|].
           cbn [Str.startswith] in E |- *. exact E.
Qed.

(** After the removal of every fence marker none is left. *)
Lemma unfence_clean (n : nat) (s : string) :
  String.length s <= n -> Str.contains "```" (unfence s) = false.
Proof.
  revert s. induction n as [|n IH]; intros s Hn.
  - destruct s; [reflexivity | simpl in Hn; lia].
  - destruct (Str.startswith "```" s) eqn:E.
    + destruct s as [|a [|b [|c t]]]; cbn [Str.startswith] in E;
        try discriminate;
        try (rewrite !andb_false_r in E; discriminate).
      repeat (apply andb_true_iff in E; destruct E as [E0 E];
              apply Ascii.eqb_eq in E0; subst).
      change (String "`" (String "`" (String "`" t))) with ("```" ++ t).
      rewrite unfence_match. apply IH. simpl in Hn. lia.
    + destruct s as [|a s1]; [reflexivity|].
      pose proof (unfence_start (S n) (String a s1) Hn) as Hst.
      rewrite (unfence_no_match _ _ E) in Hst |- *.
      rewrite contains_unfold, Hst. cbn [orb].
      apply IH. simpl in Hn. lia.
Qed.

Lemma clean_response_no_fence (text : string) :
  Str.startswith "```" text = true ->
  Str.contains "```" (clean_response text) = false.
Proof.
  intros H. unfold clean_response. rewrite H.
  destruct (Str.startswith "```json" text);
    apply contains_strip; unfold Str.replace at 1;
    now apply (unfence_clean _ _ (Nat.le_refl _)).
Qed.

Lemma clean_response_start (text : string) :
  Str.startswith "```" (clean_response text) = false.
Proof.
  destruct (Str.startswith "```" text) eqn:E.
  - now apply not_contains_startswith, clean_response_no_fence.
  - unfold clean_response. rewrite E.
    destruct (Str.startswith "```json" text) eqn:E'; [|exact E].
    change "```json" with ("```" ++ "json") in E'.
    apply startswith_prefix in E'. congruence.
Qed.

Lemma clean_response_idempotent (text : string) :
  clean_response (clean_response text) = clean_response text.
Proof.
  pose proof (clean_response_start text) as H.
  unfold clean_response at 1. rewrite H.
  destruct (Str.startswith "```json" (clean_response text)) eqn:E;
    [|reflexivity].
  change "```json" with ("```" ++ "json") in E.
  apply startswith_prefix in E. congruence.
Qed.

End FenceFacts.

Import FenceFacts.

(** X19.  The text that [validate_listing] hands to the decoder never
    starts with a fence marker; when the trimmed answer started with one,
    the text holds no fence marker at all; and removing fences from it once
    more changes nothing. *)
Theorem cleaned_without_fence (raw : string) :
  Str.startswith "```" (cleaned raw) = false
  /\ (Str.startswith "```" (Str.strip raw) = true ->
      Str.contains "```" (cleaned raw) = false)
  /\ clean_response (cleaned raw) = cleaned raw.
Proof.
  unfold cleaned. split; [apply clean_response_start|].
  split; [apply clean_response_no_fence | apply clean_response_idempotent].
Qed.

Lemma cleaned_without_fence_witness :
  Str.startswith "```" (cleaned (fenced "json" fence_advice)) = false
  /\ (Str.startswith "```" (Str.strip (fenced "json" fence_advice)) = true ->
      Str.contains "```" (cleaned (fenced "json" fence_advice)) = false)
  /\ clean_response (cleaned (fenced "json" fence_advice))
     = cleaned (fenced "json" fence_advice).
Proof. apply (cleaned_without_fence (fenced "json" fence_advice)). Defined.

(* ====================================================================== *)
(** * Where a compliant verdict comes from *)
(* ====================================================================== *)

Module VerdictFacts.
Import Models Validator Spec Terms StrFacts ModelsFacts PipelineFacts.

Lemma member_compliant (s : string) :
  member status_value statuses s = Some compliant -> s = "compliant".
Proof.
  unfold statuses. cbn [member status_value].
  destruct (String.eqb "compliant" s) eqn:E.
  - intros _. symmetry. now apply String.eqb_eq.
  - destruct (String.eqb "non_compliant" s); discriminate.
Qed.

Lemma response_init_compliant (kw : dict) (r : ValidationResponse) :
  ValidationResponse_init kw = Return r -> status r = compliant ->
  dict_get "status" kw = Some (PStr "compliant").
Proof.
  intros H Hs. apply response_init_fields in H as (H & _).
  unfold choice_field in H.
  destruct (dict_get "status" kw) as [[| | | |s| |]|]; try discriminate.
  destruct (member status_value statuses s) as [m|] eqn:Em; [|discriminate].
  injection H as ->. rewrite Hs in Em.
  now rewrite (member_compliant _ Em).
Qed.

Lemma parse_response_compliant (listing text : string)
  (r : ValidationResponse) :
  parse_response listing text = Return r -> status r = compliant ->
  exists d, Json.loads text = Return (PDict d)
            /\ dict_get "status" d = Some (PStr "compliant").
Proof.
  unfold parse_response.
  destruct (Json.loads text) as [v|]; [cbn [res_bind]|discriminate].
  destruct v; try discriminate. cbn [keys res_bind].
  intros H Hs. exists d. split; [reflexivity|].
  destruct (_ || _).
  - destruct (_estimate_reading_level listing); [cbn [res_bind] in H
                                                 |discriminate].
    apply (response_init_compliant _ _ H) in Hs.
    now rewrite !dict_get_set_other in Hs by discriminate.
  - cbn [res_bind] in H. apply (response_init_compliant _ _ H) in Hs.
    now rewrite dict_get_set_other in Hs by discriminate.
Qed.

End VerdictFacts.

Import VerdictFacts.

(** X20.  The validator never declares a listing compliant on its own: a
    result with status compliant is returned only when the service answered
    and its cleaned answer decodes to an object whose status is
    "compliant". *)
Theorem compliant_only_from_producer (self : MarketplaceValidator)
  (listing : string) (w : World) (r : ValidationResponse) :
  fst (validate_listing self listing w) = Return r ->
  status r = compliant ->
  exists raw d,
    service w (completion_request (prompt_for self listing)) = Return raw
    /\ Json.loads (cleaned raw) = Return (PDict d)
    /\ dict_get "status" d = Some (PStr "compliant").
Proof.
  rewrite validate_listing_run. cbn [fst].
  destruct (service w _) as [raw|e].
  - unfold interpret.
    destruct (parse_response listing (cleaned raw)) as [r'|e] eqn:Ep.
    + intros H Hs. injection H as ->.
      destruct (parse_response_compliant _ _ _ Ep Hs) as [d [Hd Hst]].
      now exists raw, d.
    + intros H Hs. exfalso.
      assert (Hsys : forall e0, system_error_response listing e0 = Return r ->
                                False).
      { intros e0 H0.
        apply system_error_response_inv in H0 as [level [_ ->]].
        discriminate. }
      destruct (isinstance e JSONDecodeError); [|now apply (Hsys e)].
      destruct (_create_fallback_response listing (cleaned raw))
        as [r'|e'] eqn:Ef; [|now apply (Hsys e')].
      injection H as ->.
      apply fallback_response_inv in Ef as [level [_ ->]]. discriminate.
  - intros H Hs. apply system_error_response_inv in H as [level [_ ->]].
    discriminate.
Qed.

Lemma compliant_only_from_producer_witness :
  exists raw d,
    service (answering MoreSamples.leveled_verdict)
      (completion_request (prompt_for ready promo)) = Return raw
    /\ Json.loads (cleaned raw) = Return (PDict d)
    /\ dict_get "status" d = Some (PStr "compliant").
Proof.
  apply (compliant_only_from_producer ready promo
           (answering MoreSamples.leveled_verdict)
           {| status := compliant;
              compliance_score := 9;
              issues := [];
              suggestions := "None.";
              word_count := 12;
              reading_level := Some "Grade 9" |}).
  - vm_compute. reflexivity.
  - reflexivity.
Defined.
